(** * Error-data decoding of [scripts/replayTransaction.ts]

    A shallow embedding of the part of the replay script that turns the error
    data of a failed transaction into a report: the panic-code table, the scan
    of the deployable contracts for matching custom errors, the two standard
    decoders and the composition of the report.

    The script works on the hexadecimal string form of the error data
    (a JS string such as 0x08c379a0...), and so does this development.  The
    ABI codec of the ethers library and the Hardhat artifact registry are not
    part of the repository: the codec is an interface ([AbiCodec]) the
    definitions are parametric in, and the registry is the state ([Hre]) the
    asynchronous functions read. *)

From Stdlib Require Import String Ascii List Bool NArith ZArith Lia.
From Stdlib Require Import DecimalString HexadecimalString.
Import ListNotations.
Open Scope string_scope.

(** ** JavaScript strings and arrays, as far as the script uses them *)

Module Js.

(** The double-quote character and the line feed, which the script writes
    inside its template literals. *)
Definition dquote : string := String (ascii_of_nat 34) EmptyString.
Definition newline : string := String (ascii_of_nat 10) EmptyString.

(** [s.startsWith(p)]: a code-unit-wise, case-sensitive comparison. *)
Definition startsWith (s p : string) : bool := String.prefix p s.

(** [s.substring(n)]: what is left of [s] after its first [n] code units
    (the empty string when [s] is shorter). *)
Fixpoint substringFrom (n : nat) (s : string) : string :=
  match n, s with
  | O, _ => s
  | S _, EmptyString => EmptyString
  | S n', String _ s' => substringFrom n' s'
  end.

(** [s.substring(0, n)]: the first [n] code units of [s] (all of [s] when it
    is shorter). *)
Fixpoint substringTo (n : nat) (s : string) : string :=
  match n, s with
  | O, _ => EmptyString
  | S _, EmptyString => EmptyString
  | S n', String c s' => String c (substringTo n' s')
  end.

(** [a.join(sep)] on an array of strings. *)
Definition join (sep : string) (a : list string) : string :=
  String.concat sep a.

(** [a.push(x)]: the array with [x] after its last element. *)
Definition push {A : Type} (a : list A) (x : A) : list A := a ++ [x].

End Js.

(** ** Exceptions

    A call that throws ends the enclosing function unless a [try] catches it.
    The faults below are the ones the calls of the script can raise: the ABI
    decoder rejecting a payload, [BigNumber.toNumber] on a value that does
    not fit a JS safe integer, and [ethers.getContractFactory] on a contract
    it can not make a factory for (one with unlinked libraries). *)

Inductive exn : Type :=
| AbiDecodeError
| NumericOverflow
| ContractFactoryError.

Inductive result (A : Type) : Type :=
| Ok (a : A)
| Throw (e : exn).

Arguments Ok {A} a.
Arguments Throw {A} e.

Definition rbind {A B : Type} (c : result A) (k : A -> result B) : result B :=
  match c with
  | Ok a => k a
  | Throw e => Throw e
  end.

Definition orThrow {A : Type} (e : exn) (o : option A) : result A :=
  match o with
  | Some a => Ok a
  | None => Throw e
  end.

Declare Scope result_scope.
Delimit Scope result_scope with result.
Notation "x <- c ;; k" := (rbind c (fun x => k))
  (at level 61, c at next level, right associativity) : result_scope.

(** ** ethers' BigNumber, for the unsigned values the decoder returns *)

Module BigNumber.

Definition t : Type := N.

(** Digits of [toString(16)]: lower case, no leading zero, 0 for zero. *)
Definition hexDigits (b : t) : string :=
  HexadecimalString.NilEmpty.string_of_uint (N.to_hex_uint b).

(** [toHexString()]: 0x and the digits, padded with one 0 to an even
    number of digits (0x00, 0x11, 0x0100). *)
Definition toHexString (b : t) : string :=
  let d := hexDigits b in
  if Nat.even (String.length d) then "0x" ++ d else "0x0" ++ d.

(** [toNumber()]: the value as a JS number; it throws the overflow fault
    when the value needs more than 53 bits. *)
Definition toNumber (b : t) : result Z :=
  if (b <? 2 ^ 53)%N then Ok (Z.of_N b) else Throw NumericOverflow.

End BigNumber.

(** ** The panic-code table (lines 24-47) *)

Definition panicErrorCodeToReason (errorCode : Z) : string :=
  if (errorCode =? 0x1)%Z then
    "Assertion error"
  else if (errorCode =? 0x11)%Z then
    "Arithmetic operation underflowed or overflowed outside of an unchecked block"
  else if (errorCode =? 0x12)%Z then
    "Division or modulo division by zero"
  else if (errorCode =? 0x21)%Z then
    "Tried to convert a value into an enum, but the value was too big or negative"
  else if (errorCode =? 0x22)%Z then
    "Incorrectly encoded storage byte array"
  else if (errorCode =? 0x31)%Z then
    ".pop() was called on an empty array"
  else if (errorCode =? 0x32)%Z then
    "Array accessed at an out-of-bounds or negative index"
  else if (errorCode =? 0x41)%Z then
    "Too much memory was allocated, or an array was created that is too large"
  else if (errorCode =? 0x51)%Z then
    "Called a zero-initialized variable of internal function type"
  else
    "???".

(** The codes the table lists. *)
Definition panicCodes : list Z :=
  [0x1; 0x11; 0x12; 0x21; 0x22; 0x31; 0x32; 0x41; 0x51]%Z.

(** ** The ABI codec of ethers, as the script calls it

    [parseError] is [Interface.parseError]: it finds the error of the
    interface that the data names and decodes the arguments, and throws when
    the interface has no such error or the payload does not fit it ([None]).
    [decodeString] and [decodeUint] are
    [defaultAbiCoder.decode(["string"], content)[0]] and
    [defaultAbiCoder.decode(["uint"], content)[0]]; [None] is a throw. *)

Record ErrorDescription (Value : Type) : Type := {
  errorFragment_name : string;
  args : list Value
}.

Arguments errorFragment_name {Value} _.
Arguments args {Value} _.

Class AbiCodec : Type := {
  Interface : Type;
  Value : Type;
  toString : Value -> string;
  parseError : Interface -> string -> option (ErrorDescription Value);
  decodeString : string -> option string;
  decodeUint : string -> option BigNumber.t
}.

(** ** Contracts of the project (lines 19-22) *)

Record Artifact : Type := {
  contractName : string;
  bytecode : string
}.

Record ContractFactory `{AbiCodec} : Type := {
  interface : Interface
}.

Record ContractEntity `{AbiCodec} : Type := {
  artifact : Artifact;
  contractFactory : ContractFactory
}.

(** ** The Hardhat runtime the asynchronous functions read

    [artifacts.getAllFullyQualifiedNames()], [artifacts.readArtifact(name)]
    and [ethers.getContractFactory(name)] answer from the compiled project:
    the names, the artifact of a name, and the factory of a name, which is
    missing ([None]) where the call throws.  The functions of the script are
    run against this state and hand it on. *)

Record Hre `{AbiCodec} : Type := {
  allFullyQualifiedNames : list string;
  artifactOf : string -> Artifact;
  contractFactoryOf : string -> option ContractFactory
}.

Section Script.

Context `{codec : AbiCodec}.

(** A computation of the script: it runs on the runtime, ends with a value
    or a throw, and leaves a runtime behind. *)
Definition M (A : Type) : Type := Hre -> result A * Hre.

Definition ret {A : Type} (a : A) : M A := fun h => (Ok a, h).

Definition bind {A B : Type} (c : M A) (k : A -> M B) : M B :=
  fun h =>
    match c h with
    | (Ok a, h') => k a h'
    | (Throw e, h') => (Throw e, h')
    end.

Definition lift {A : Type} (r : result A) : M A := fun h => (r, h).

Definition getAllFullyQualifiedNames : M (list string) :=
  fun h => (Ok (allFullyQualifiedNames h), h).

Definition readArtifact (contractFullName : string) : M Artifact :=
  fun h => (Ok (artifactOf h contractFullName), h).

Definition getContractFactory (contractFullName : string) : M ContractFactory :=
  fun h => (orThrow ContractFactoryError (contractFactoryOf h contractFullName), h).

(** A [for ... of] loop whose body awaits: the body runs on each element in
    turn with the local array it pushes to. *)
Fixpoint forOf {A S : Type} (body : S -> A -> M S) (xs : list A) (s : S) : M S :=
  match xs with
  | [] => ret s
  | x :: xs' => bind (body s x) (forOf body xs')
  end.

Local Notation "x <~ c ;; k" := (bind c (fun x => k))
  (at level 61, c at next level, right associativity).

(** Script parameter (line 17). *)
Definition textLevelIndent : string := "  ".

(** *** getDeployableContractEntities (lines 49-60) *)

(** The body of the loop (lines 53-57), on the array built so far. *)
Definition collectDeployable (deployableContractEntities : list ContractEntity)
    (contractFullName : string) : M (list ContractEntity) :=
  artifact <~ readArtifact contractFullName ;;
  if negb (String.eqb (bytecode artifact) "0x") then
    contractFactory <~ getContractFactory contractFullName ;;
    ret (Js.push deployableContractEntities
           {| artifact := artifact; contractFactory := contractFactory |})
  else
    ret deployableContractEntities.

Definition getDeployableContractEntities : M (list ContractEntity) :=
  contractFullNames <~ getAllFullyQualifiedNames ;;
  forOf collectDeployable contractFullNames [].

(** *** decodeCustomErrorData (lines 62-86) *)

(** The callback of [args.map] (lines 69-75), on the string form of the
    argument. *)
Definition renderArgString (argString : string) : string :=
  if Js.startsWith argString "0x" then
    Js.dquote ++ argString ++ Js.dquote
  else
    argString.

(** Lines 69-76. *)
Definition decodedArgsOf (errorDescription : ErrorDescription Value) : string :=
  Js.join ", " (map (fun arg => renderArgString (toString arg)) (args errorDescription)).

(** Lines 77-78. *)
Definition decodedErrorOf (errorDescription : ErrorDescription Value)
    (contractEntity : ContractEntity) : string :=
  let decodedArgs := decodedArgsOf errorDescription in
  let contractName := contractName (artifact contractEntity) in
  errorFragment_name errorDescription ++ "(" ++ decodedArgs ++ ") -- from contract "
    ++ Js.dquote ++ contractName ++ Js.dquote.

(** The body of the [try] (lines 68-79): the string pushed for the entity,
    or [None] when [parseError] threw (what follows it only builds strings). *)
Definition tryDecode (errorData : string) (contractEntity : ContractEntity)
    : option string :=
  match parseError (interface (contractFactory contractEntity)) errorData with
  | Some errorDescription => Some (decodedErrorOf errorDescription contractEntity)
  | None => None
  end.

(** One round of the [forEach] (lines 66-83): [try] the body, and on a
    throw [catch] it and do nothing. *)
Definition forEachBody (errorData : string)
    (decodedCustomErrorStrings : list string) (contractEntity : ContractEntity)
    : list string :=
  match tryDecode errorData contractEntity with
  | Some decodedError => Js.push decodedCustomErrorStrings decodedError
  | None => decodedCustomErrorStrings
  end.

(** Lines 64-85, on the entities it is given: the custom error matcher. *)
Definition matchCustomErrors (errorData : string)
    (deployableContractEntites : list ContractEntity) : list string :=
  fold_left (forEachBody errorData) deployableContractEntites [].

Definition decodeCustomErrorData (errorData : string) : M (list string) :=
  deployableContractEntites <~ getDeployableContractEntities ;;
  ret (matchCustomErrors errorData deployableContractEntites).

(** *** decodeRevertMessage (lines 88-92) and decodePanicCode (lines 94-100) *)

Definition decodeRevertMessage (errorData : string) : result string :=
  (let content := "0x" ++ Js.substringFrom 10 errorData in
   reason <- orThrow AbiDecodeError (decodeString content) ;;
   Ok ("Reverted with the message: " ++ Js.dquote ++ reason ++ Js.dquote ++ "."))%result.

Definition decodePanicCode (errorData : string) : result string :=
  (let content := "0x" ++ Js.substringFrom 10 errorData in
   code <- orThrow AbiDecodeError (decodeUint content) ;;
   let codeHex := BigNumber.toHexString code in
   errorCode <- BigNumber.toNumber code ;;
   let reason := panicErrorCodeToReason errorCode in
   Ok ("Panicked with the code: " ++ Js.dquote ++ codeHex ++ Js.dquote
         ++ "(" ++ reason ++ ")."))%result.

(** *** decodeErrorData (lines 102-129) *)

(** Lines 105-128, once the custom error strings are there.  The first
    component of the pair is [result], the second [isCustomErrorOnly]. *)
Definition composeReport (errorData textIndent : string)
    (decodedCustomErrorStrings : list string) : result string :=
  (let nextLevelTextIndent := textIndent ++ textLevelIndent in
   branch <-
     (if Js.startsWith errorData "0x08c379a0" then
        message <- decodeRevertMessage errorData ;;
        Ok (textIndent ++ message, false)
      else if Js.startsWith errorData "0x4e487b71" then
        message <- decodePanicCode errorData ;;
        Ok (textIndent ++ message, false)
      else if (0 <? List.length decodedCustomErrorStrings)%nat then
        Ok (textIndent ++ "Reverted with a custom error (or several suitable ones):"
              ++ Js.newline ++ nextLevelTextIndent
              ++ Js.join (Js.newline ++ nextLevelTextIndent) decodedCustomErrorStrings,
            true)
      else
        Ok (textIndent
              ++ "Reverted with a custom error that can't be decoded using the provided contracts."
              ++ Js.newline ++ textIndent
              ++ "Try to add more contract(s) to the " ++ Js.dquote ++ "contracts"
              ++ Js.dquote ++ " directory to get decoded error.",
            true)) ;;
   let '(result, isCustomErrorOnly) := branch in
   if negb isCustomErrorOnly then
     if (0 <? List.length decodedCustomErrorStrings)%nat then
       Ok (result ++ " Also it can be the following custom error(s):"
             ++ Js.newline ++ nextLevelTextIndent
             ++ Js.join (Js.newline ++ nextLevelTextIndent) decodedCustomErrorStrings)
     else Ok result
   else Ok result)%result.

Definition decodeErrorData (errorData textIndent : string) : M string :=
  decodedCustomErrorStrings <~ decodeCustomErrorData errorData ;;
  lift (composeReport errorData textIndent decodedCustomErrorStrings).

End Script.

(** ** The report as classification and formatting

    The specification splits [decodeErrorData] into a classifier and a
    formatter.  [classify] is the selector dispatch of lines 108-113 together
    with the decoding done by [decodeRevertMessage] and [decodePanicCode],
    with a value where the script builds text; [formatReport] is the text
    built from it.  [composeReport_classify] below shows that the script
    computes their composition. *)

Inductive ClassificationResult : Type :=
| StandardMessage (text : string)
| StandardPanic (code : BigNumber.t) (reason : string)
| Unclassified.

Section Classification.

Context `{codec : AbiCodec}.

Definition classify (errorData : string) : result ClassificationResult :=
  (if Js.startsWith errorData "0x08c379a0" then
     reason <- orThrow AbiDecodeError (decodeString ("0x" ++ Js.substringFrom 10 errorData)) ;;
     Ok (StandardMessage reason)
   else if Js.startsWith errorData "0x4e487b71" then
     code <- orThrow AbiDecodeError (decodeUint ("0x" ++ Js.substringFrom 10 errorData)) ;;
     errorCode <- BigNumber.toNumber code ;;
     Ok (StandardPanic code (panicErrorCodeToReason errorCode))
   else
     Ok Unclassified)%result.

(** The text of a standard kind (lines 91 and 99). *)
Definition primaryLine (classification : ClassificationResult) : string :=
  match classification with
  | StandardMessage text =>
      "Reverted with the message: " ++ Js.dquote ++ text ++ Js.dquote ++ "."
  | StandardPanic code reason =>
      "Panicked with the code: " ++ Js.dquote ++ BigNumber.toHexString code ++ Js.dquote
        ++ "(" ++ reason ++ ")."
  | Unclassified => EmptyString
  end.

(** The matches, one per line at [nextIndent] (lines 116 and 124-125). *)
Definition matchLines (nextIndent : string) (customMatches : list string) : string :=
  nextIndent ++ Js.join (Js.newline ++ nextIndent) customMatches.

(** The two lines of lines 118-119. *)
Definition undecodableBlock (indent : string) : string :=
  indent ++ "Reverted with a custom error that can't be decoded using the provided contracts."
    ++ Js.newline ++ indent
    ++ "Try to add more contract(s) to the " ++ Js.dquote ++ "contracts" ++ Js.dquote
    ++ " directory to get decoded error.".

Definition formatReport (classification : ClassificationResult)
    (customMatches : list string) (indent : string) : string :=
  let nextIndent := indent ++ textLevelIndent in
  match classification, customMatches with
  | Unclassified, [] => undecodableBlock indent
  | Unclassified, _ :: _ =>
      indent ++ "Reverted with a custom error (or several suitable ones):" ++ Js.newline
        ++ matchLines nextIndent customMatches
  | _, [] => indent ++ primaryLine classification
  | _, _ :: _ =>
      (indent ++ primaryLine classification)
        ++ " Also it can be the following custom error(s):" ++ Js.newline
        ++ matchLines nextIndent customMatches
  end.

End Classification.

(** The two lines the specification gives for an unclassified error with no
    match (section 4.4, step 4), in the specification's words. *)
Definition specUndecodableBlock (indent : string) : string :=
  indent ++ "Reverted with a custom error that can't be decoded using the provided contracts."
    ++ Js.newline ++ indent
    ++ "Try to add more contract(s) to the candidate set to get decoded error.".

(** ** The matcher of the specification

    The successful decodes of the candidates, in the order the candidates
    were supplied (section 4.3), to compare the loop of the script with. *)

Section Matcher.

Context `{codec : AbiCodec}.

Definition successfulDecodes (errorData : string) (candidates : list ContractEntity)
    : list string :=
  flat_map
    (fun candidate =>
       match tryDecode errorData candidate with
       | Some decodedError => [decodedError]
       | None => []
       end)
    candidates.

(** The candidate set of a list of names: an entity for each contract whose
    bytecode is not the empty 0x, in the order of the names; there is none
    when the factory of such a contract is missing. *)
Fixpoint entitiesOf (h : Hre) (contractFullNames : list string)
    : option (list ContractEntity) :=
  match contractFullNames with
  | [] => Some []
  | contractFullName :: others =>
      if String.eqb (bytecode (artifactOf h contractFullName)) "0x" then
        entitiesOf h others
      else
        match contractFactoryOf h contractFullName, entitiesOf h others with
        | Some factory, Some entities =>
            Some ({| artifact := artifactOf h contractFullName;
                     contractFactory := factory |} :: entities)
        | _, _ => None
        end
  end.

(** The candidate set of a runtime. *)
Definition deployableOf (h : Hre) : option (list ContractEntity) :=
  entitiesOf h (allFullyQualifiedNames h).

End Matcher.

(** ** The arrays of the script

    The two arrays the script builds, [deployableContractEntities] and
    [decodedCustomErrorStrings], are objects: a function that holds a
    reference to one can push to it, also to one an earlier call returned.
    Here the functions of lines 49-129 are written once more over a store of
    arrays, with the array operations as the script performs them ([[]]
    allocates, [push] writes, [forEach], [length] and [join] read), to state
    what they write.  A reference is the place of the array in the store. *)

Module Heap.

Section Store.

Context `{codec : AbiCodec}.

Record World : Type := {
  hardhat : Hre;
  entityArrays : list (list ContractEntity);
  stringArrays : list (list string)
}.

Definition H (A : Type) : Type := World -> result A * World.

Definition hret {A : Type} (a : A) : H A := fun w => (Ok a, w).

Definition hbind {A B : Type} (c : H A) (k : A -> H B) : H B :=
  fun w =>
    match c w with
    | (Ok a, w') => k a w'
    | (Throw e, w') => (Throw e, w')
    end.

(** A call that reads the Hardhat runtime. *)
Definition onRuntime {A : Type} (c : M A) : H A :=
  fun w =>
    match c (hardhat w) with
    | (r, h') =>
        (r, {| hardhat := h';
               entityArrays := entityArrays w;
               stringArrays := stringArrays w |})
    end.

Definition ofResult {A : Type} (r : result A) : H A := fun w => (r, w).

(** The array at a place, changed by [f]; no array is changed when the
    place holds none. *)
Fixpoint updateAt {A : Type} (place : nat) (f : A -> A) (arrays : list A) : list A :=
  match arrays, place with
  | [], _ => []
  | a :: others, O => f a :: others
  | a :: others, S place' => a :: updateAt place' f others
  end.

(** [[]]: a new array, after the ones there are. *)
Definition newEntityArray : H nat :=
  fun w =>
    (Ok (List.length (entityArrays w)),
     {| hardhat := hardhat w;
        entityArrays := entityArrays w ++ [[]];
        stringArrays := stringArrays w |}).

Definition newStringArray : H nat :=
  fun w =>
    (Ok (List.length (stringArrays w)),
     {| hardhat := hardhat w;
        entityArrays := entityArrays w;
        stringArrays := stringArrays w ++ [[]] |}).

(** [array.push(x)]. *)
Definition pushEntity (array : nat) (x : ContractEntity) : H unit :=
  fun w =>
    (Ok tt,
     {| hardhat := hardhat w;
        entityArrays := updateAt array (fun a => Js.push a x) (entityArrays w);
        stringArrays := stringArrays w |}).

Definition pushString (array : nat) (x : string) : H unit :=
  fun w =>
    (Ok tt,
     {| hardhat := hardhat w;
        entityArrays := entityArrays w;
        stringArrays := updateAt array (fun a => Js.push a x) (stringArrays w) |}).

(** [array.length] and [array[i]]. *)
Definition entityCount (array : nat) : H nat :=
  fun w => (Ok (List.length (nth array (entityArrays w) [])), w).

Definition entityAt (array i : nat) : H (option ContractEntity) :=
  fun w => (Ok (nth_error (nth array (entityArrays w) []) i), w).

(** The elements of an array of strings, as [length] and [join] read them. *)
Definition stringsOf (array : nat) : H (list string) :=
  fun w => (Ok (nth array (stringArrays w) []), w).

Local Notation "x <== c ;; k" := (hbind c (fun x => k))
  (at level 61, c at next level, right associativity).
Local Notation "c ;;;; k" := (hbind c (fun _ => k))
  (at level 61, right associativity).

(** [for (let x of xs)] with a body that awaits. *)
Fixpoint forOf {A : Type} (body : A -> H unit) (xs : list A) : H unit :=
  match xs with
  | [] => hret tt
  | x :: xs' => body x ;;;; forOf body xs'
  end.

(** [array.forEach(callback)]: the length is read once, and the callback
    is called on the element at each place below it that holds one. *)
Fixpoint forEachFrom (array : nat) (callback : ContractEntity -> H unit)
    (count i : nat) : H unit :=
  match count with
  | O => hret tt
  | S count' =>
      element <== entityAt array i ;;
      match element with
      | Some contractEntity => callback contractEntity
      | None => hret tt
      end ;;;;
      forEachFrom array callback count' (S i)
  end.

Definition forEach (array : nat) (callback : ContractEntity -> H unit) : H unit :=
  count <== entityCount array ;;
  forEachFrom array callback count 0.

(** The body of the loop (lines 53-57), with the array it pushes to. *)
Definition collectDeployable (deployableContractEntities : nat)
    (contractFullName : string) : H unit :=
  artifact <== onRuntime (readArtifact contractFullName) ;;
  if negb (String.eqb (bytecode artifact) "0x") then
    contractFactory <== onRuntime (getContractFactory contractFullName) ;;
    pushEntity deployableContractEntities
      {| artifact := artifact; contractFactory := contractFactory |}
  else
    hret tt.

(** Lines 49-60. *)
Definition getDeployableContractEntities : H nat :=
  contractFullNames <== onRuntime getAllFullyQualifiedNames ;;
  deployableContractEntities <== newEntityArray ;;
  forOf (collectDeployable deployableContractEntities) contractFullNames ;;;;
  hret deployableContractEntities.

(** The callback of the [forEach] (lines 66-83), with the array it pushes
    to: it pushes the decoded error, and does nothing when the body of the
    [try] threw. *)
Definition forEachCallback (errorData : string) (decodedCustomErrorStrings : nat)
    (contractEntity : ContractEntity) : H unit :=
  match tryDecode errorData contractEntity with
  | Some decodedError => pushString decodedCustomErrorStrings decodedError
  | None => hret tt
  end.

(** Lines 64-85, on the array of entities it is given. *)
Definition matchCustomErrors (errorData : string) (deployableContractEntites : nat)
    : H nat :=
  decodedCustomErrorStrings <== newStringArray ;;
  forEach deployableContractEntites
    (forEachCallback errorData decodedCustomErrorStrings) ;;;;
  hret decodedCustomErrorStrings.

(** Lines 62-86. *)
Definition decodeCustomErrorData (errorData : string) : H nat :=
  deployableContractEntites <== getDeployableContractEntities ;;
  matchCustomErrors errorData deployableContractEntites.

(** Lines 102-129. *)
Definition decodeErrorData (errorData textIndent : string) : H string :=
  decodedCustomErrorStrings <== decodeCustomErrorData errorData ;;
  strings <== stringsOf decodedCustomErrorStrings ;;
  ofResult (composeReport errorData textIndent strings).

(** What a later call can see of the arrays there were: [after] keeps the
    arrays of [before] as they were, each at its place, and has the same
    runtime. *)
Definition keeps (before after : World) : Prop :=
  hardhat after = hardhat before
  /\ (exists added, entityArrays after = (entityArrays before ++ added)%list)
  /\ (exists added, stringArrays after = (stringArrays before ++ added)%list).

End Store.

End Heap.

(** ** Error data as bytes

    The error data is a byte sequence; the script holds its hexadecimal
    string form: 0x, then two digits per byte, a digit in either case. *)

Module Hex.

Definition digitValue (c : ascii) : option N :=
  let n := N_of_ascii c in
  if ((48 <=? n) && (n <=? 57))%N then Some (n - 48)%N
  else if ((97 <=? n) && (n <=? 102))%N then Some (n - 87)%N
  else if ((65 <=? n) && (n <=? 70))%N then Some (n - 55)%N
  else None.

(** The bytes two digits at a time; [None] on an odd count or on a
    character that is no digit. *)
Fixpoint bytesOfDigits (s : string) : option (list N) :=
  match s with
  | EmptyString => Some []
  | String hi (String lo rest) =>
      match digitValue hi, digitValue lo, bytesOfDigits rest with
      | Some h, Some l, Some bs => Some ((16 * h + l)%N :: bs)
      | _, _, _ => None
      end
  | String _ EmptyString => None
  end.

(** The bytes a hexadecimal string stands for. *)
Definition toBytes (data : string) : option (list N) :=
  if Js.startsWith data "0x" then bytesOfDigits (Js.substringFrom 2 data)
  else None.

(** The number of bytes of a hexadecimal string of whole bytes. *)
Definition byteLength (data : string) : nat := (String.length data - 2) / 2.

(** The first four bytes: the selector. *)
Definition selectorOf (data : string) : option (list N) :=
  if Js.startsWith data "0x" && (10 <=? String.length data)%nat then
    bytesOfDigits (Js.substringTo 8 (Js.substringFrom 2 data))
  else None.

(** A big-endian word as a number. *)
Definition wordValue (bytes : list N) : N :=
  fold_left (fun acc b => (256 * acc + b)%N) bytes 0%N.

End Hex.

(** The selector of the standard encoding Error(string), as bytes. *)
Definition errorSelector : list N := [0x08; 0xc3; 0x79; 0xa0]%N.

(** ** A codec to run the script on concrete data

    An executable instance of [AbiCodec] after ethers version 5, for errors
    whose parameters are unsigned integers, 32-byte values and addresses
    written with decimal digits only (the library prints the other addresses
    in the mixed case of their checksum, which needs the hash function; this
    instance rejects them), and for text in the ASCII range (the library
    reads UTF-8; this instance rejects a byte above 127).  The statements
    about the script are proved for every codec; this instance runs them on
    examples. *)

Module Ethers.

Inductive ParamType : Type :=
| PUint (bits : N)
| PBytes32
| PAddress.

(** A decoded argument: a number (a BigNumber or a JS number: both print
    in decimal) or the hexadecimal string of a byte value. *)
Inductive DecodedValue : Type :=
| VNumber (n : N)
| VHexString (s : string).

(** An error of an interface, with its selector (the first four bytes of
    the hash of its signature). *)
Record ErrorFragment : Type := {
  fragmentName : string;
  sighash : list N;
  inputs : list ParamType
}.

Definition decimal (n : N) : string :=
  DecimalString.NilEmpty.string_of_uint (N.to_uint n).

Definition hexDigit (n : N) : ascii :=
  if (n <? 10)%N then ascii_of_N (48 + n) else ascii_of_N (87 + n).

Fixpoint hexOfBytes (bytes : list N) : string :=
  match bytes with
  | [] => EmptyString
  | b :: rest => String (hexDigit (b / 16)) (String (hexDigit (b mod 16)) (hexOfBytes rest))
  end.

Definition valueToString (v : DecodedValue) : string :=
  match v with
  | VNumber n => decimal n
  | VHexString s => s
  end.

Definition bytesEqb (a b : list N) : bool :=
  (List.length a =? List.length b)%nat
  && forallb (fun p => (fst p =? snd p)%N) (combine a b).

(** The value of a 32-byte word under a type.  An address is the last 20
    bytes of a word whose first 12 are zero. *)
Definition decodeWord (ty : ParamType) (word : list N) : option DecodedValue :=
  match ty with
  | PUint bits => Some (VNumber (Hex.wordValue word mod 2 ^ bits))
  | PBytes32 => Some (VHexString ("0x" ++ hexOfBytes word))
  | PAddress =>
      if (Hex.wordValue word <? 2 ^ 160)%N
         && forallb (fun b => (b / 16 <? 10)%N && (b mod 16 <? 10)%N) (skipn 12 word)
      then Some (VHexString ("0x" ++ hexOfBytes (skipn 12 word)))
      else None
  end.

(** The arguments, one 32-byte word each. *)
Fixpoint decodeArgs (types : list ParamType) (payload : list N)
    : option (list DecodedValue) :=
  match types with
  | [] => Some []
  | ty :: types' =>
      if (List.length payload <? 32)%nat then None
      else
        match decodeWord ty (firstn 32 payload), decodeArgs types' (skipn 32 payload) with
        | Some value, Some values => Some (value :: values)
        | _, _ => None
        end
  end.

Definition parseError (iface : list ErrorFragment) (data : string)
    : option (ErrorDescription DecodedValue) :=
  match Hex.toBytes data with
  | Some (b0 :: b1 :: b2 :: b3 :: payload) =>
      match find (fun f => bytesEqb (sighash f) [b0; b1; b2; b3]) iface with
      | Some f =>
          match decodeArgs (inputs f) payload with
          | Some values =>
              Some {| errorFragment_name := fragmentName f; args := values |}
          | None => None
          end
      | None => None
      end
  | _ => None
  end.

Definition decodeUint (content : string) : option BigNumber.t :=
  match Hex.toBytes content with
  | Some bytes =>
      if (List.length bytes <? 32)%nat then None
      else Some (Hex.wordValue (firstn 32 bytes))
  | None => None
  end.

Fixpoint asciiText (bytes : list N) : option string :=
  match bytes with
  | [] => Some EmptyString
  | b :: rest =>
      if (b <? 128)%N then
        match asciiText rest with
        | Some s => Some (String (ascii_of_N b) s)
        | None => None
        end
      else None
  end.

(** A string parameter: the word at 0 is the offset of the length word,
    and the text follows it, padded to whole words. *)
Definition decodeString (content : string) : option string :=
  match Hex.toBytes content with
  | Some bytes =>
      if (List.length bytes <? 32)%nat then None
      else
        let offset := Hex.wordValue (firstn 32 bytes) in
        if (N.of_nat (List.length bytes) <? offset + 32)%N then None
        else
          let tail := skipn (N.to_nat offset) bytes in
          let len := Hex.wordValue (firstn 32 tail) in
          let padded := (32 * ((len + 31) / 32))%N in
          if (N.of_nat (List.length tail) <? 32 + padded)%N then None
          else asciiText (firstn (N.to_nat len) (skipn 32 tail))
  | None => None
  end.

#[export] Instance codec : AbiCodec := {
  Interface := list ErrorFragment;
  Value := DecodedValue;
  toString := valueToString;
  parseError := parseError;
  decodeString := decodeString;
  decodeUint := decodeUint
}.

End Ethers.

(** ** Example data

    The errors [RevocationLimitReached(uint8)] (selector e271508f),
    [ZeroAccount()] (selector bfcf3c0b) and [BlacklistedAccount(address)]
    (selector e137861c) of the card payment processor, a second deployable
    contract that declares the first of them, and an interface without
    bytecode. *)

Module Example.

Import Ethers.

Definition processorErrors : list ErrorFragment :=
  [ {| fragmentName := "ZeroAccount"; sighash := [0xbf; 0xcf; 0x3c; 0x0b]%N; inputs := [] |};
    {| fragmentName := "RevocationLimitReached"; sighash := [0xe2; 0x71; 0x50; 0x8f]%N;
       inputs := [PUint 8] |};
    {| fragmentName := "BlacklistedAccount"; sighash := [0xe1; 0x37; 0x86; 0x1c]%N;
       inputs := [PAddress] |} ].

Definition tokenErrors : list ErrorFragment :=
  [ {| fragmentName := "RevocationLimitReached"; sighash := [0xe2; 0x71; 0x50; 0x8f]%N;
       inputs := [PUint 8] |} ].

Definition processor : ContractEntity :=
  {| artifact := {| contractName := "CardPaymentProcessor"; bytecode := "0x6080" |};
     contractFactory := {| interface := processorErrors |} |}.

Definition token : ContractEntity :=
  {| artifact := {| contractName := "TokenMock"; bytecode := "0x6080" |};
     contractFactory := {| interface := tokenErrors |} |}.

Definition hre : Hre :=
  {| allFullyQualifiedNames :=
       [ "contracts/CardPaymentProcessor.sol:CardPaymentProcessor";
         "contracts/ICardPaymentProcessor.sol:ICardPaymentProcessor";
         "contracts/TokenMock.sol:TokenMock" ];
     artifactOf := fun name =>
       if String.eqb name "contracts/CardPaymentProcessor.sol:CardPaymentProcessor"
       then artifact processor
       else if String.eqb name "contracts/TokenMock.sol:TokenMock"
       then artifact token
       else {| contractName := "ICardPaymentProcessor"; bytecode := "0x" |};
     contractFactoryOf := fun name =>
       if String.eqb name "contracts/CardPaymentProcessor.sol:CardPaymentProcessor"
       then Some (contractFactory processor)
       else if String.eqb name "contracts/TokenMock.sol:TokenMock"
       then Some (contractFactory token)
       else None |}.

(** The same project with the libraries of the token contract not linked:
    no factory can be made for it. *)
Definition unlinkedHre : Hre :=
  {| allFullyQualifiedNames := allFullyQualifiedNames hre;
     artifactOf := artifactOf hre;
     contractFactoryOf := fun name =>
       if String.eqb name "contracts/CardPaymentProcessor.sol:CardPaymentProcessor"
       then Some (contractFactory processor)
       else None |}.

(** A contract with an error whose selector is that of Error(string). *)
Definition twin : ContractEntity :=
  {| artifact := {| contractName := "Twin"; bytecode := "0x6080" |};
     contractFactory :=
       {| interface :=
            [ {| fragmentName := "SelectorTwin"; sighash := [0x08; 0xc3; 0x79; 0xa0]%N;
                 inputs := [PUint 256] |} ] |} |}.

Definition twinHre : Hre :=
  {| allFullyQualifiedNames := ["contracts/Twin.sol:Twin"];
     artifactOf := fun _ => artifact twin;
     contractFactoryOf := fun _ => Some (contractFactory twin) |}.

Definition zeros (n : nat) : string := String.concat EmptyString (repeat "0" n).

(** RevocationLimitReached(3). *)
Definition revocationLimitData : string := "0xe271508f" ++ zeros 63 ++ "3".

(** BlacklistedAccount(0x1111111111111111111111111111111111111111). *)
Definition blacklistedData : string :=
  "0xe137861c" ++ zeros 24 ++ "1111111111111111111111111111111111111111".

(** Error("insufficient funds"), in lower and in upper case digits. *)
Definition insufficientFundsPayload : string :=
  zeros 62 ++ "20" ++ zeros 62 ++ "12"
    ++ "696e73756666696369656e742066756e6473" ++ zeros 28.

Definition insufficientFundsData : string := "0x08c379a0" ++ insufficientFundsPayload.

Definition upperCaseData : string :=
  "0x08C379A0" ++ zeros 62 ++ "20" ++ zeros 62 ++ "12"
    ++ "696E73756666696369656E742066756E6473" ++ zeros 28.

(** Panic(0x11), and Panic(2^53). *)
Definition panic11Data : string := "0x4e487b71" ++ zeros 62 ++ "11".
Definition panicBigData : string := "0x4e487b71" ++ zeros 50 ++ "20000000000000".

(** The selector of Error(string) before one byte, which is no encoding of
    a string: in lower and in upper case digits. *)
Definition malformedData : string := "0x08c379a0" ++ "00".
Definition upperCaseMalformedData : string := "0x08C379A0" ++ "00".

(** Error data of a custom error no contract of [hre] declares, and error
    data of three bytes. *)
Definition unknownData : string := "0x1e22c3a0".
Definition shortData : string := "0x08c379".

End Example.

(** ** Lines of a report

    The report is printed with one [console.log]; its lines are what stands
    between the line feeds. *)

Module Text.

Definition isNewline (c : ascii) : bool := Ascii.eqb c (ascii_of_nat 10).

(** [s.split("\n")]. *)
Fixpoint splitLines (s : string) : list string :=
  match s with
  | EmptyString => [EmptyString]
  | String c rest =>
      if isNewline c then EmptyString :: splitLines rest
      else
        match splitLines rest with
        | line :: others => String c line :: others
        | [] => [String c EmptyString]
        end
  end.

(** Whether a line feed occurs in the string. *)
Fixpoint hasNewline (s : string) : bool :=
  match s with
  | EmptyString => false
  | String c rest => isNewline c || hasNewline rest
  end.

End Text.

(** ** main (lines 132-196)

    [main] talks to the original network, to the Hardhat network and to the
    console.  A run is modelled by the actions it performs, in order, and by
    how the promise of [main] ends; the answers of the two networks are
    given with the run. *)

Module Replay.

(** An argument of [console.log]: the script passes strings, numbers and
    what [e.message] and [e.data] hold, which may be nothing. *)
Inductive JsValue : Type :=
| JsString (s : string)
| JsNumber (n : Z)
| JsUndefined.

Inductive Action : Type :=
| ConsoleLog (args : list JsValue)
| NewJsonRpcProvider (url : string)
| GetTransaction (hash : string)
| HardhatReset (jsonRpcUrl : string) (blockNumber : Z)
| EvmMine
| SendTransaction (raw : string).

(** The fields of a transaction response the script reads; a pending
    transaction has no block number, and a node may leave out the raw
    data. *)
Record TransactionResponse : Type := {
  blockNumber : option Z;
  raw : option string
}.

(** What [sendTransaction] threw: the two fields the script reads, each a
    string or nothing (a field that holds no string has no length above 2
    and is not decoded: it stands here as nothing). *)
Record ThrownError : Type := {
  message : option string;
  data : option string
}.

(** An awaited call outside any [try]: it answers, or it throws and the
    throw rejects the promise of [main]. *)
Inductive Rpc (A : Type) : Type :=
| Answered (a : A)
| Failed.

Arguments Answered {A} a.
Arguments Failed {A}.

(** The answers of the networks in a run.  [getTransaction] answers null
    ([None]) for an unknown hash; [sendTransaction] is accepted ([None]) or
    throws. *)
Record Network : Type := {
  getTransaction : string -> Rpc (option TransactionResponse);
  hardhatReset : string -> Z -> Rpc unit;
  evmMine : Rpc unit;
  sendTransaction : string -> option ThrownError
}.

Inductive Fault : Type :=
| RpcFault
| DecoderFault (e : exn).

Inductive Outcome (A : Type) : Type :=
| Resolved (a : A)
| Rejected (fault : Fault).

Arguments Resolved {A} a.
Arguments Rejected {A} fault.

(** [!x] on a number that may be missing: missing and 0 are falsy. *)
Definition numberIsFalsy (x : option Z) : bool :=
  match x with
  | Some n => (n =? 0)%Z
  | None => true
  end.

(** [!x] on a string that may be missing: missing and the empty string are
    falsy. *)
Definition stringIsFalsy (x : option string) : bool :=
  match x with
  | Some s => (String.length s =? 0)%nat
  | None => true
  end.

Definition jsOfString (x : option string) : JsValue :=
  match x with
  | Some s => JsString s
  | None => JsUndefined
  end.

(** The actions that are no [console.log]. *)
Definition isCommand (a : Action) : bool :=
  match a with
  | ConsoleLog _ => false
  | _ => true
  end.

Definition commands (trace : list Action) : list Action := filter isCommand trace.

(** The actions on the Hardhat network. *)
Definition touchesFork (a : Action) : bool :=
  match a with
  | HardhatReset _ _ | EvmMine | SendTransaction _ => true
  | _ => false
  end.

Section Main.

Context `{codec : AbiCodec}.

Record Run (A : Type) : Type := {
  trace : list Action;
  outcome : Outcome A;
  runtime : Hre
}.

Arguments trace {A} _.
Arguments outcome {A} _.
Arguments runtime {A} _.

(** A part of [main]: from a runtime, the actions, the end and the runtime
    left. *)
Definition P (A : Type) : Type := Hre -> Run A.

Definition pret {A : Type} (a : A) : P A :=
  fun h => {| trace := []; outcome := Resolved a; runtime := h |}.

Definition pbind {A B : Type} (c : P A) (k : A -> P B) : P B :=
  fun h =>
    match c h with
    | {| trace := done; outcome := Resolved a; runtime := h' |} =>
        match k a h' with
        | {| trace := rest; outcome := end_; runtime := h'' |} =>
            {| trace := done ++ rest; outcome := end_; runtime := h'' |}
        end
    | {| trace := done; outcome := Rejected fault; runtime := h' |} =>
        {| trace := done; outcome := Rejected fault; runtime := h' |}
    end.

Definition consoleLog (args : list JsValue) : P unit :=
  fun h => {| trace := [ConsoleLog args]; outcome := Resolved tt; runtime := h |}.

(** An awaited call: the action, then its answer or the rejection. *)
Definition await {A : Type} (action : Action) (answer : Rpc A) : P A :=
  fun h =>
    {| trace := [action];
       outcome := match answer with
                  | Answered a => Resolved a
                  | Failed => Rejected RpcFault
                  end;
       runtime := h |}.

(** A function of the script, awaited: its throw rejects. *)
Definition awaitScript {A : Type} (c : M A) : P A :=
  fun h =>
    match c h with
    | (Ok a, h') => {| trace := []; outcome := Resolved a; runtime := h' |}
    | (Throw e, h') =>
        {| trace := []; outcome := Rejected (DecoderFault e); runtime := h' |}
    end.

Local Notation "x <~~ c ;; k" := (pbind c (fun x => k))
  (at level 61, c at next level, right associativity).
Local Notation "c ;;; k" := (pbind c (fun _ => k))
  (at level 61, right associativity).

(** Lines 186-195: the [catch] block. *)
Definition onSendFailure (e : ThrownError) (textIndent1 textIndent2 textIndent3 : string)
    : P unit :=
  let errorData := data e in
  consoleLog [JsString (textIndent1 ++ "❌ Transaction sending failed!")] ;;;
  consoleLog [JsString (textIndent2 ++ "👉 The exception message:"); jsOfString (message e)] ;;;
  consoleLog [JsString (textIndent2 ++ "👉 The error data:"); jsOfString errorData] ;;;
  match errorData with
  | Some errorData =>
      if (2 <? String.length errorData)%nat then
        consoleLog [JsString (textIndent2 ++ "👉 The result of error data decoding:")] ;;;
        report <~~ awaitScript (decodeErrorData errorData (textIndent3 ++ " ")) ;;
        consoleLog [JsString report]
      else pret tt
  | None => pret tt
  end.

(** Lines 132-196. *)
Definition main (txHash rpcUrl : string) (net : Network) : P unit :=
  consoleLog [JsString "🏁 Replaying the transaction with hash"; JsString txHash;
              JsString "..."] ;;;
  let textIndent1 := textLevelIndent in
  let textIndent2 := textIndent1 ++ textLevelIndent in
  let textIndent3 := textIndent2 ++ textLevelIndent in
  consoleLog [JsString (textIndent1 ++ "👉 Original network RPC URL:"); JsString rpcUrl] ;;;
  (fun h => {| trace := [NewJsonRpcProvider rpcUrl]; outcome := Resolved tt; runtime := h |}) ;;;
  consoleLog [JsString EmptyString] ;;;
  consoleLog [JsString (textIndent1
                ++ "🏁 Getting the transaction response from the original network ...")] ;;;
  txResponse <~~ await (GetTransaction txHash) (getTransaction net txHash) ;;
  match txResponse with
  | None =>
      consoleLog [JsString (textIndent1
                    ++ "⛔ The transaction with the provided hash does not exist.")]
  | Some txResponse =>
      if numberIsFalsy (blockNumber txResponse) then
        consoleLog [JsString (textIndent1
                      ++ "⛔ The transaction with the provided hash has not been minted yet.")]
      else if stringIsFalsy (raw txResponse) then
        consoleLog [JsString (textIndent1
                      ++ "⛔ The transaction does not have the raw data with the signature. Check the RPC!")]
      else
        let txBlockNumber := match blockNumber txResponse with Some n => n | None => 0%Z end in
        let txRaw := match raw txResponse with Some s => s | None => EmptyString end in
        consoleLog [JsString (textIndent1
                      ++ "✅ The transaction has been gotten successfully:")] ;;;
        consoleLog [JsString (textIndent2
                      ++ "👉 The block number of the transaction in the original chain:");
                    JsNumber txBlockNumber] ;;;
        consoleLog [JsString (textIndent2 ++ "👉 The raw data of the signed transaction:");
                    JsString txRaw] ;;;
        consoleLog [JsString EmptyString] ;;;
        let previousBlockNumber := (txBlockNumber - 1)%Z in
        consoleLog [JsString (textIndent1
                      ++ "🏁 Resetting the Hardhat network with forking for the previous block ...")] ;;;
        await (HardhatReset rpcUrl previousBlockNumber)
          (hardhatReset net rpcUrl previousBlockNumber) ;;;
        consoleLog [JsString (textIndent1
                      ++ "✅ The resetting has done successfully. The current block:");
                    JsNumber previousBlockNumber] ;;;
        consoleLog [JsString EmptyString] ;;;
        consoleLog [JsString (textIndent1 ++ "🏁 Minting the block");
                    JsNumber previousBlockNumber; JsString "..."] ;;;
        await EvmMine (evmMine net) ;;;
        consoleLog [JsString (textIndent1 ++ "✅ The minting has done successfully.")] ;;;
        consoleLog [JsString EmptyString] ;;;
        consoleLog [JsString (textIndent1
                      ++ "🏁 Sending the transaction to the forked network ...")] ;;;
        (fun h => {| trace := [SendTransaction txRaw]; outcome := Resolved tt; runtime := h |}) ;;;
        match sendTransaction net txRaw with
        | None =>
            consoleLog [JsString (textIndent1
                          ++ "✅ The transaction has been sent successfully!")]
        | Some e => onSendFailure e textIndent1 textIndent2 textIndent3
        end
  end.

End Main.

Arguments trace {codec A} _.
Arguments outcome {codec A} _.
Arguments runtime {codec A} _.

(** Runs [main] up to the first answer it waits for. *)
Ltac run_main :=
  unfold main, onSendFailure, pbind, consoleLog, await, awaitScript, pret;
  cbn [trace outcome runtime blockNumber raw data message numberIsFalsy stringIsFalsy].

End Replay.

(** ** A replay to run [main] on

    A transaction of block 1200 that reverts on the fork with
    RevocationLimitReached(3), on the runtime of the two example
    contracts. *)

Module ReplayExample.

Import Replay.

Definition txHash : string := "0xabc1".
Definition rpcUrl : string := "http://localhost:8545".
Definition rawTx : string := "0xf86b01".

Definition revertingSend (errorData : option string) : Network :=
  {| getTransaction := fun hash =>
       if String.eqb hash txHash
       then Answered (Some {| blockNumber := Some 1200%Z; raw := Some rawTx |})
       else Answered None;
     hardhatReset := fun _ _ => Answered tt;
     evmMine := Answered tt;
     sendTransaction := fun _ =>
       Some {| message := Some "VM Exception while processing transaction";
               data := errorData |} |}.

(** The same transaction, not yet in a block. *)
Definition pendingNetwork : Network :=
  {| getTransaction := fun _ => Answered (Some {| blockNumber := None; raw := Some rawTx |});
     hardhatReset := fun _ _ => Answered tt;
     evmMine := Answered tt;
     sendTransaction := fun _ => None |}.

End ReplayExample.

(** * Properties *)

(** ** Strings *)

Section StringFacts.

Lemma startsWith_app (p s : string) : Js.startsWith (p ++ s) p = true.
Proof.
  unfold Js.startsWith.
  induction p as [|a p IH]; simpl.
  - destruct s; reflexivity.
  - destruct (ascii_dec a a) as [_|ne]; [exact IH | congruence].
Qed.

Lemma startsWith_inv (p s : string) :
  Js.startsWith s p = true -> s = p ++ Js.substringFrom (String.length p) s.
Proof.
  unfold Js.startsWith.
  revert s; induction p as [|a p IH]; intros s H; simpl.
  - reflexivity.
  - destruct s as [|b s]; simpl in H; [discriminate|].
    destruct (ascii_dec a b) as [->|]; [|discriminate].
    simpl. f_equal. apply IH, H.
Qed.

Lemma substringFrom_app (p s : string) :
  Js.substringFrom (String.length p) (p ++ s) = s.
Proof.
  induction p as [|a p IH]; simpl; [reflexivity | exact IH].
Qed.

Lemma startsWith_length (p s : string) :
  Js.startsWith s p = true -> String.length p <= String.length s.
Proof.
  unfold Js.startsWith.
  revert s; induction p as [|a p IH]; intros s H; simpl.
  - lia.
  - destruct s as [|b s]; simpl in H; [discriminate|].
    destruct (ascii_dec a b); [|discriminate].
    simpl. apply IH in H. lia.
Qed.

Lemma startsWith_false (p s : string) :
  (forall rest, s <> p ++ rest) -> Js.startsWith s p = false.
Proof.
  intros H. destruct (Js.startsWith s p) eqn:E; [|reflexivity].
  apply startsWith_inv in E. exfalso. exact (H _ E).
Qed.

Lemma append_assoc (a b c : string) : (a ++ b) ++ c = a ++ (b ++ c).
Proof.
  induction a as [|x a IH]; simpl; [reflexivity | now rewrite IH].
Qed.

End StringFacts.

(** ** The panic-code table *)

Section PanicTable.

(** C3: [panicErrorCodeToReason] gives each of the nine codes of the table
    its fixed reason, and every other code (0x99 and 0x0 among them) the
    placeholder of three question marks.  It is a function into strings: it
    has a value on every code. *)
Theorem panicErrorCodeToReason_table :
  panicErrorCodeToReason 0x1 = "Assertion error"
  /\ panicErrorCodeToReason 0x11
     = "Arithmetic operation underflowed or overflowed outside of an unchecked block"
  /\ panicErrorCodeToReason 0x12 = "Division or modulo division by zero"
  /\ panicErrorCodeToReason 0x21
     = "Tried to convert a value into an enum, but the value was too big or negative"
  /\ panicErrorCodeToReason 0x22 = "Incorrectly encoded storage byte array"
  /\ panicErrorCodeToReason 0x31 = ".pop() was called on an empty array"
  /\ panicErrorCodeToReason 0x32 = "Array accessed at an out-of-bounds or negative index"
  /\ panicErrorCodeToReason 0x41
     = "Too much memory was allocated, or an array was created that is too large"
  /\ panicErrorCodeToReason 0x51
     = "Called a zero-initialized variable of internal function type"
  /\ (forall code : Z, ~ In code panicCodes -> panicErrorCodeToReason code = "???")
  /\ panicErrorCodeToReason 0x99 = "???"
  /\ panicErrorCodeToReason 0x0 = "???".
Proof.
  repeat (split; [reflexivity|]).
  split; [|split; reflexivity].
  intros code Hout. unfold panicErrorCodeToReason.
  repeat match goal with
  | |- context [Z.eqb code ?c] =>
      destruct (Z.eqb_spec code c) as [->|_];
      [exfalso; apply Hout; simpl; tauto|]
  end.
  reflexivity.
Qed.

(** The default at a code outside the table, 0x52. *)
Lemma panicErrorCodeToReason_table_witness :
  ~ In 0x52%Z panicCodes /\ panicErrorCodeToReason 0x52 = "???".
Proof.
  assert (Hout : ~ In 0x52%Z panicCodes).
  { simpl. intros H. repeat (destruct H as [H|H]; [discriminate H|]). exact H. }
  split; [exact Hout|].
  destruct panicErrorCodeToReason_table
    as (_ & _ & _ & _ & _ & _ & _ & _ & _ & Hdefault & _).
  exact (Hdefault 0x52%Z Hout).
Defined.

End PanicTable.

(** ** The custom error matcher *)

Section MatcherFacts.

Context `{codec : AbiCodec}.

(** The loop only ever appends to the array: from any contents, it ends
    with the contents followed by the successful decodes. *)
Lemma forEach_appends (errorData : string) (candidates : list ContractEntity) :
  forall decodedCustomErrorStrings,
    fold_left (forEachBody errorData) candidates decodedCustomErrorStrings
    = (decodedCustomErrorStrings ++ successfulDecodes errorData candidates)%list.
Proof.
  induction candidates as [|c cs IH]; intros acc; simpl.
  - now rewrite app_nil_r.
  - rewrite IH. unfold forEachBody, Js.push.
    destruct (tryDecode errorData c) as [decodedError|]; simpl.
    + now rewrite <- app_assoc.
    + reflexivity.
Qed.

Lemma matchCustomErrors_successfulDecodes (errorData : string)
    (candidates : list ContractEntity) :
  matchCustomErrors errorData candidates = successfulDecodes errorData candidates.
Proof.
  unfold matchCustomErrors. now rewrite forEach_appends.
Qed.

Lemma successfulDecodes_app (errorData : string) (xs ys : list ContractEntity) :
  successfulDecodes errorData (xs ++ ys)%list
  = (successfulDecodes errorData xs ++ successfulDecodes errorData ys)%list.
Proof.
  unfold successfulDecodes. apply flat_map_app.
Qed.

(** C2: the matcher returns exactly the successful decodes, in the order of
    the candidates; a candidate whose decode throws is skipped and changes
    nothing else; and two candidates that both decode the data give two
    entries, the first candidate's first, also when the entries are equal. *)
Theorem matchCustomErrors_successes_in_order :
  forall (errorData : string) (candidates : list ContractEntity),
    matchCustomErrors errorData candidates = successfulDecodes errorData candidates
    /\ (forall before failing after,
          candidates = (before ++ failing :: after)%list ->
          tryDecode errorData failing = None ->
          matchCustomErrors errorData candidates
          = (matchCustomErrors errorData before ++ matchCustomErrors errorData after)%list)
    /\ (forall first second description1 description2,
          candidates = [first; second] ->
          parseError (interface (contractFactory first)) errorData = Some description1 ->
          parseError (interface (contractFactory second)) errorData = Some description2 ->
          matchCustomErrors errorData candidates
          = [decodedErrorOf description1 first; decodedErrorOf description2 second]
          /\ List.length (matchCustomErrors errorData candidates) = 2%nat).
Proof.
  intros errorData candidates. split; [|split].
  - apply matchCustomErrors_successfulDecodes.
  - intros before failing after -> Hfail.
    rewrite !matchCustomErrors_successfulDecodes, successfulDecodes_app.
    simpl. now rewrite Hfail.
  - intros first second d1 d2 -> H1 H2.
    rewrite matchCustomErrors_successfulDecodes.
    unfold successfulDecodes, tryDecode. simpl.
    rewrite H1, H2. split; reflexivity.
Qed.

(** C7: in the entry of a match, an argument whose string form begins with
    0x is put between double quotes, any other argument is left as it is,
    and the arguments are joined by a comma and a space: the entry the scan
    returns for a candidate that decodes the data is the name of the error,
    the arguments so rendered between brackets, and the name of the
    contract. *)
Theorem arguments_quoted_when_hex_like :
  (forall rest : string,
     renderArgString ("0x" ++ rest) = Js.dquote ++ ("0x" ++ rest) ++ Js.dquote)
  /\ (forall argString : string,
        (forall rest, argString <> "0x" ++ rest) ->
        renderArgString argString = argString)
  /\ renderArgString "0xABCDEF" = Js.dquote ++ "0xABCDEF" ++ Js.dquote
  /\ renderArgString "42" = "42"
  /\ (forall name : string,
        decodedArgsOf {| errorFragment_name := name; args := [] |} = EmptyString)
  /\ (forall (name : string) (arg : Value),
        decodedArgsOf {| errorFragment_name := name; args := [arg] |}
        = renderArgString (toString arg))
  /\ (forall (name : string) (arg next : Value) (others : list Value),
        decodedArgsOf {| errorFragment_name := name; args := arg :: next :: others |}
        = renderArgString (toString arg) ++ ", "
            ++ decodedArgsOf {| errorFragment_name := name; args := next :: others |})
  /\ (forall (errorData : string) (candidate : ContractEntity)
             (errorDescription : ErrorDescription Value),
        parseError (interface (contractFactory candidate)) errorData
        = Some errorDescription ->
        matchCustomErrors errorData [candidate]
        = [errorFragment_name errorDescription ++ "("
             ++ decodedArgsOf errorDescription ++ ") -- from contract "
             ++ Js.dquote ++ contractName (artifact candidate) ++ Js.dquote])
  /\ (forall (errorData : string) (candidate : ContractEntity) (name rest : string)
             (hexArg plainArg : Value),
        parseError (interface (contractFactory candidate)) errorData
        = Some {| errorFragment_name := name; args := [hexArg; plainArg] |} ->
        toString hexArg = "0x" ++ rest ->
        (forall other, toString plainArg <> "0x" ++ other) ->
        matchCustomErrors errorData [candidate]
        = [name ++ "(" ++ (Js.dquote ++ ("0x" ++ rest) ++ Js.dquote) ++ ", "
             ++ toString plainArg ++ ") -- from contract "
             ++ Js.dquote ++ contractName (artifact candidate) ++ Js.dquote]).
Proof.
  assert (Hentry : forall (errorData : string) (candidate : ContractEntity)
                          (errorDescription : ErrorDescription Value),
            parseError (interface (contractFactory candidate)) errorData
            = Some errorDescription ->
            matchCustomErrors errorData [candidate]
            = [errorFragment_name errorDescription ++ "("
                 ++ decodedArgsOf errorDescription ++ ") -- from contract "
                 ++ Js.dquote ++ contractName (artifact candidate) ++ Js.dquote]).
  { intros errorData candidate errorDescription Hparse.
    unfold matchCustomErrors, forEachBody, tryDecode. simpl. now rewrite Hparse. }
  repeat apply conj.
  - intros rest. unfold renderArgString.
    now rewrite (startsWith_app "0x" rest).
  - intros argString Hnot. unfold renderArgString.
    now rewrite (startsWith_false "0x" argString Hnot).
  - reflexivity.
  - reflexivity.
  - reflexivity.
  - reflexivity.
  - reflexivity.
  - exact Hentry.
  - intros errorData candidate name rest hexArg plainArg Hparse Hhex Hplain.
    rewrite (Hentry _ _ _ Hparse). unfold decodedArgsOf, renderArgString.
    cbn [args errorFragment_name map Js.join String.concat].
    rewrite Hhex, (startsWith_app "0x" rest),
      (startsWith_false "0x" (toString plainArg) Hplain).
    now rewrite !append_assoc.
Qed.

(** C6: error data shorter than four bytes is unclassified, and no candidate
    matches it, given what [parseError] does with data too short to hold a
    selector: it throws.  The report is then the one for an error that can
    not be decoded. *)
Theorem short_data_unclassified_no_match :
  (forall (iface : Interface) (data : string),
     String.length data < 10 -> parseError iface data = None) ->
  forall (errorData : string) (candidates : list ContractEntity),
    Hex.byteLength errorData < 4 ->
    classify errorData = Ok Unclassified
    /\ matchCustomErrors errorData candidates = []
    /\ forall textIndent,
         composeReport errorData textIndent (matchCustomErrors errorData candidates)
         = Ok (undecodableBlock textIndent).
Proof.
  intros Hselector errorData candidates Hshort.
  assert (Hlen : String.length errorData < 10).
  { unfold Hex.byteLength in Hshort.
    destruct (Nat.lt_ge_cases (String.length errorData) 10) as [|Hge]; [assumption|].
    exfalso.
    assert (4 <= (String.length errorData - 2) / 2).
    { change 4 with (8 / 2). apply Nat.Div0.div_le_mono. lia. }
    lia. }
  assert (Herr : Js.startsWith errorData "0x08c379a0" = false).
  { destruct (Js.startsWith errorData "0x08c379a0") eqn:E; [|reflexivity].
    apply startsWith_length in E. simpl in E. lia. }
  assert (Hpanic : Js.startsWith errorData "0x4e487b71" = false).
  { destruct (Js.startsWith errorData "0x4e487b71") eqn:E; [|reflexivity].
    apply startsWith_length in E. simpl in E. lia. }
  assert (Hnone : matchCustomErrors errorData candidates = []).
  { rewrite matchCustomErrors_successfulDecodes.
    induction candidates as [|c cs IH]; simpl; [reflexivity|].
    unfold tryDecode at 1. now rewrite (Hselector _ _ Hlen). }
  split; [|split].
  - unfold classify. now rewrite Herr, Hpanic.
  - exact Hnone.
  - intros textIndent. rewrite Hnone.
    unfold composeReport. rewrite Herr, Hpanic. reflexivity.
Qed.

End MatcherFacts.

(** ** Classification and the report *)

Section ReportFacts.

Context `{codec : AbiCodec}.

(** The script computes the report of the classification and the matches:
    a throw of the classifier is a throw of the script, and a value is
    formatted. *)
Lemma composeReport_classify (errorData textIndent : string)
    (decodedCustomErrorStrings : list string) :
  composeReport errorData textIndent decodedCustomErrorStrings
  = rbind (classify errorData)
      (fun classification =>
         Ok (formatReport classification decodedCustomErrorStrings textIndent)).
Proof.
  unfold composeReport, classify, decodeRevertMessage, decodePanicCode.
  destruct (Js.startsWith errorData "0x08c379a0").
  - destruct (decodeString _) as [reason|]; simpl; [|reflexivity].
    destruct decodedCustomErrorStrings; reflexivity.
  - destruct (Js.startsWith errorData "0x4e487b71").
    + destruct (decodeUint _) as [code|]; simpl; [|reflexivity].
      destruct (BigNumber.toNumber code) as [errorCode|e]; simpl; [|reflexivity].
      destruct decodedCustomErrorStrings; reflexivity.
    + destruct decodedCustomErrorStrings; reflexivity.
Qed.

Lemma classify_Unclassified_inv (errorData : string) :
  classify errorData = Ok Unclassified ->
  Js.startsWith errorData "0x08c379a0" = false
  /\ Js.startsWith errorData "0x4e487b71" = false.
Proof.
  unfold classify.
  destruct (Js.startsWith errorData "0x08c379a0").
  - destruct (decodeString _); simpl; discriminate.
  - destruct (Js.startsWith errorData "0x4e487b71"); [|auto].
    destruct (decodeUint _) as [code|]; simpl; [|discriminate].
    destruct (BigNumber.toNumber code); simpl; discriminate.
Qed.

Lemma toNumber_safe (code : BigNumber.t) :
  (code < 2 ^ 53)%N -> BigNumber.toNumber code = Ok (Z.of_N code).
Proof.
  intros H. unfold BigNumber.toNumber.
  destruct (N.ltb_spec code (2 ^ 53)); [reflexivity | lia].
Qed.

Lemma toNumber_overflow (code : BigNumber.t) :
  (2 ^ 53 <= code)%N -> BigNumber.toNumber code = Throw NumericOverflow.
Proof.
  intros H. unfold BigNumber.toNumber.
  destruct (N.ltb_spec code (2 ^ 53)); [lia | reflexivity].
Qed.

Lemma classify_panic_prefix (payload : string) :
  classify ("0x4e487b71" ++ payload)
  = rbind (orThrow AbiDecodeError (decodeUint ("0x" ++ payload)))
      (fun code =>
         rbind (BigNumber.toNumber code)
           (fun errorCode => Ok (StandardPanic code (panicErrorCodeToReason errorCode)))).
Proof.
  unfold classify.
  replace (Js.startsWith ("0x4e487b71" ++ payload) "0x08c379a0") with false
    by reflexivity.
  rewrite (startsWith_app "0x4e487b71" payload).
  change 10 with (String.length "0x4e487b71").
  now rewrite substringFrom_app.
Qed.

Lemma classify_error_prefix (payload : string) :
  classify ("0x08c379a0" ++ payload)
  = rbind (orThrow AbiDecodeError (decodeString ("0x" ++ payload)))
      (fun reason => Ok (StandardMessage reason)).
Proof.
  unfold classify.
  rewrite (startsWith_app "0x08c379a0" payload).
  change 10 with (String.length "0x08c379a0").
  now rewrite substringFrom_app.
Qed.

(** C1, as the script has it: error data whose string form begins with the
    lower-case 0x08c379a0 and whose payload decodes as a string is a
    standard message with that string; error data that begins with
    0x4e487b71 and whose payload decodes to a code below 2^53 is a standard
    panic with the code and its reason; error data that begins with neither
    is unclassified.  The text the script builds is the line of that kind. *)
Theorem classify_by_hex_prefix :
  (forall payload text : string,
     decodeString ("0x" ++ payload) = Some text ->
     classify ("0x08c379a0" ++ payload) = Ok (StandardMessage text)
     /\ forall textIndent,
          composeReport ("0x08c379a0" ++ payload) textIndent []
          = Ok (textIndent ++ "Reverted with the message: "
                  ++ Js.dquote ++ text ++ Js.dquote ++ "."))
  /\ (forall (payload : string) (code : BigNumber.t),
        decodeUint ("0x" ++ payload) = Some code ->
        (code < 2 ^ 53)%N ->
        classify ("0x4e487b71" ++ payload)
        = Ok (StandardPanic code (panicErrorCodeToReason (Z.of_N code)))
        /\ forall textIndent,
             composeReport ("0x4e487b71" ++ payload) textIndent []
             = Ok (textIndent ++ "Panicked with the code: "
                     ++ Js.dquote ++ BigNumber.toHexString code ++ Js.dquote
                     ++ "(" ++ panicErrorCodeToReason (Z.of_N code) ++ ")."))
  /\ (forall errorData : string,
        (forall payload, errorData <> "0x08c379a0" ++ payload) ->
        (forall payload, errorData <> "0x4e487b71" ++ payload) ->
        classify errorData = Ok Unclassified).
Proof.
  split; [|split].
  - intros payload text Hdecode.
    assert (Hc : classify ("0x08c379a0" ++ payload) = Ok (StandardMessage text)).
    { rewrite classify_error_prefix, Hdecode. reflexivity. }
    split; [exact Hc|].
    intros textIndent. rewrite composeReport_classify, Hc. reflexivity.
  - intros payload code Hdecode Hsafe.
    assert (Hc : classify ("0x4e487b71" ++ payload)
                 = Ok (StandardPanic code (panicErrorCodeToReason (Z.of_N code)))).
    { rewrite classify_panic_prefix, Hdecode. simpl.
      rewrite (toNumber_safe code Hsafe). reflexivity. }
    split; [exact Hc|].
    intros textIndent. rewrite composeReport_classify, Hc. reflexivity.
  - intros errorData Herr Hpanic. unfold classify.
    rewrite (startsWith_false _ _ Herr), (startsWith_false _ _ Hpanic).
    reflexivity.
Qed.

(** C4, with the wording of the script: for unclassified error data and no
    match the report is two lines, the second of which points at the
    contracts directory; the first line holds the text about the provided
    contracts. *)
Theorem undecodable_report_two_lines :
  forall errorData textIndent : string,
    classify errorData = Ok Unclassified ->
    composeReport errorData textIndent []
    = Ok (textIndent
            ++ "Reverted with a custom error that can't be decoded using the provided contracts."
            ++ Js.newline ++ textIndent
            ++ "Try to add more contract(s) to the " ++ Js.dquote ++ "contracts" ++ Js.dquote
            ++ " directory to get decoded error.")
    /\ formatReport Unclassified [] textIndent = undecodableBlock textIndent
    /\ exists before after : string,
         undecodableBlock textIndent
         = before ++ "can't be decoded using the provided contracts." ++ after.
Proof.
  intros errorData textIndent Hc.
  split; [|split].
  - rewrite composeReport_classify, Hc. reflexivity.
  - reflexivity.
  - exists (textIndent ++ "Reverted with a custom error that ").
    eexists. unfold undecodableBlock.
    rewrite append_assoc. reflexivity.
Qed.

(** A standard kind whose payload the decoder rejects: the throw leaves the
    script, whatever the matcher found. *)
Lemma standard_decode_failure_propagates (payload textIndent : string)
    (decodedCustomErrorStrings : list string) :
  (decodeString ("0x" ++ payload) = None ->
   composeReport ("0x08c379a0" ++ payload) textIndent decodedCustomErrorStrings
   = Throw AbiDecodeError)
  /\ (decodeUint ("0x" ++ payload) = None ->
      composeReport ("0x4e487b71" ++ payload) textIndent decodedCustomErrorStrings
      = Throw AbiDecodeError).
Proof.
  split; intros Hnone; rewrite composeReport_classify.
  - now rewrite classify_error_prefix, Hnone.
  - now rewrite classify_panic_prefix, Hnone.
Qed.

(** A panic payload that decodes to a code of more than 53 bits: the
    conversion for the table throws, and the throw leaves the script. *)
Lemma panic_code_overflow_propagates (payload textIndent : string)
    (code : BigNumber.t) (decodedCustomErrorStrings : list string) :
  decodeUint ("0x" ++ payload) = Some code ->
  (2 ^ 53 <= code)%N ->
  composeReport ("0x4e487b71" ++ payload) textIndent decodedCustomErrorStrings
  = Throw NumericOverflow.
Proof.
  intros Hdecode Hbig. rewrite composeReport_classify, classify_panic_prefix, Hdecode.
  simpl. now rewrite (toNumber_overflow code Hbig).
Qed.

(** C10: the selector test compares the characters of the string form.
    Error data whose first four bytes are the selector of Error(string),
    written with upper-case digits, is not recognized: it is unclassified
    and reported as a custom error, while the same bytes in lower case are
    dispatched to the string decoder. *)
Theorem uppercase_selector_not_recognized :
  forall payload : string,
    Hex.selectorOf ("0x08C379A0" ++ payload) = Some errorSelector
    /\ Hex.selectorOf ("0x08c379a0" ++ payload) = Some errorSelector
    /\ classify ("0x08C379A0" ++ payload) = Ok Unclassified
    /\ (forall textIndent decodedCustomErrorStrings,
          composeReport ("0x08C379A0" ++ payload) textIndent decodedCustomErrorStrings
          = Ok (formatReport Unclassified decodedCustomErrorStrings textIndent))
    /\ classify ("0x08c379a0" ++ payload)
       = rbind (orThrow AbiDecodeError (decodeString ("0x" ++ payload)))
           (fun reason => Ok (StandardMessage reason)).
Proof.
  intros payload.
  assert (Hc : classify ("0x08C379A0" ++ payload) = Ok Unclassified) by reflexivity.
  split; [reflexivity|].
  split; [reflexivity|].
  split; [exact Hc|].
  split.
  - intros textIndent ms. rewrite composeReport_classify, Hc. reflexivity.
  - apply classify_error_prefix.
Qed.

End ReportFacts.

(** ** The script on the runtime *)

Section RuntimeFacts.

Context `{codec : AbiCodec}.

Lemma collectDeployable_loop (h : Hre) (contractFullNames : list string) :
  forall deployableContractEntities,
    forOf collectDeployable contractFullNames deployableContractEntities h
    = (orThrow ContractFactoryError
         (option_map (app deployableContractEntities) (entitiesOf h contractFullNames)),
       h).
Proof.
  induction contractFullNames as [|name names IH]; intros acc; simpl.
  - unfold ret. now rewrite app_nil_r.
  - unfold bind at 1, collectDeployable, bind at 1, readArtifact.
    destruct (String.eqb (bytecode (artifactOf h name)) "0x"); simpl.
    + unfold ret. apply IH.
    + unfold bind, getContractFactory, ret, Js.push.
      destruct (contractFactoryOf h name) as [factory|]; simpl; [|reflexivity].
      rewrite IH. destruct (entitiesOf h names) as [entities|]; simpl; [|reflexivity].
      now rewrite <- app_assoc.
Qed.

(** The candidate set is read off the runtime, which stays as it was; a
    missing factory is a throw. *)
Lemma getDeployableContractEntities_run (h : Hre) :
  getDeployableContractEntities h
  = (orThrow ContractFactoryError (deployableOf h), h).
Proof.
  unfold getDeployableContractEntities, bind, getAllFullyQualifiedNames.
  rewrite collectDeployable_loop. unfold deployableOf.
  destruct (entitiesOf h (allFullyQualifiedNames h)); reflexivity.
Qed.

Lemma decodeCustomErrorData_run (errorData : string) (h : Hre) :
  decodeCustomErrorData errorData h
  = (rbind (orThrow ContractFactoryError (deployableOf h))
       (fun entities => Ok (matchCustomErrors errorData entities)),
     h).
Proof.
  unfold decodeCustomErrorData, bind.
  rewrite getDeployableContractEntities_run.
  destruct (deployableOf h); reflexivity.
Qed.

(** The matcher runs first and on every error data; the report is composed
    from what it returns. *)
Lemma decodeErrorData_run (errorData textIndent : string) (h : Hre) :
  decodeErrorData errorData textIndent h
  = (rbind (fst (decodeCustomErrorData errorData h))
       (fun decodedCustomErrorStrings =>
          composeReport errorData textIndent decodedCustomErrorStrings),
     h).
Proof.
  unfold decodeErrorData, bind, lift.
  rewrite decodeCustomErrorData_run.
  destruct (deployableOf h); reflexivity.
Qed.

Lemma decodeErrorData_matched (errorData textIndent : string) (h : Hre)
    (decodedCustomErrorStrings : list string) :
  fst (decodeCustomErrorData errorData h) = Ok decodedCustomErrorStrings ->
  decodeErrorData errorData textIndent h
  = (composeReport errorData textIndent decodedCustomErrorStrings, h).
Proof.
  intros H. rewrite decodeErrorData_run, H. reflexivity.
Qed.

(** A throw of the scan is the throw of the construction of the candidate
    set. *)
Lemma decodeCustomErrorData_throw (errorData : string) (h : Hre) (e : exn) :
  fst (decodeCustomErrorData errorData h) = Throw e ->
  e = ContractFactoryError
  /\ fst (getDeployableContractEntities h) = Throw ContractFactoryError.
Proof.
  rewrite decodeCustomErrorData_run, getDeployableContractEntities_run.
  destruct (deployableOf h); simpl; [discriminate|].
  intros H. injection H as <-. auto.
Qed.

(** C5: when the error data is a standard message or a standard panic and
    the matcher found something, the report is the line of the standard kind
    followed by the note on custom errors and the matches, one per line at
    the next indent.  The matches are those the scan of the script returned
    for the same error data: it runs whatever the selector is. *)
Theorem secondary_block_after_standard_line :
  forall (errorData textIndent : string) (classification : ClassificationResult)
         (customMatches : list string),
    classify errorData = Ok classification ->
    classification <> Unclassified ->
    customMatches <> [] ->
    composeReport errorData textIndent customMatches
    = Ok ((textIndent ++ primaryLine classification)
            ++ " Also it can be the following custom error(s):" ++ Js.newline
            ++ (textIndent ++ textLevelIndent)
            ++ Js.join (Js.newline ++ textIndent ++ textLevelIndent) customMatches)
    /\ forall h : Hre,
         fst (decodeCustomErrorData errorData h) = Ok customMatches ->
         decodeErrorData errorData textIndent h
         = (Ok ((textIndent ++ primaryLine classification)
                  ++ " Also it can be the following custom error(s):" ++ Js.newline
                  ++ (textIndent ++ textLevelIndent)
                  ++ Js.join (Js.newline ++ textIndent ++ textLevelIndent) customMatches),
            h).
Proof.
  intros errorData textIndent classification customMatches Hc Hstd Hsome.
  assert (Hreport :
    composeReport errorData textIndent customMatches
    = Ok ((textIndent ++ primaryLine classification)
            ++ " Also it can be the following custom error(s):" ++ Js.newline
            ++ (textIndent ++ textLevelIndent)
            ++ Js.join (Js.newline ++ textIndent ++ textLevelIndent) customMatches)).
  { rewrite composeReport_classify, Hc. simpl.
    destruct customMatches as [|m ms]; [congruence|].
    destruct classification; [reflexivity | reflexivity | congruence]. }
  split; [exact Hreport|].
  intros h Hmatches. rewrite (decodeErrorData_matched _ _ _ _ Hmatches).
  now rewrite Hreport.
Qed.

(** What makes the composition of the report throw, when no panic payload
    decodes to a code of 2^53 or more: the decoder rejecting the payload
    under one of the two prefixes. *)
Lemma composeReport_throw (errorData textIndent : string)
    (decodedCustomErrorStrings : list string) (e : exn) :
  composeReport errorData textIndent decodedCustomErrorStrings = Throw e ->
  (forall code,
     Js.startsWith errorData "0x4e487b71" = true ->
     decodeUint ("0x" ++ Js.substringFrom 10 errorData) = Some code ->
     (code < 2 ^ 53)%N) ->
  e = AbiDecodeError
  /\ ((Js.startsWith errorData "0x08c379a0" = true
       /\ decodeString ("0x" ++ Js.substringFrom 10 errorData) = None)
      \/ (Js.startsWith errorData "0x08c379a0" = false
          /\ Js.startsWith errorData "0x4e487b71" = true
          /\ decodeUint ("0x" ++ Js.substringFrom 10 errorData) = None)).
Proof.
  intros Hthrow Hsafe.
  rewrite composeReport_classify in Hthrow. unfold classify in Hthrow.
  destruct (Js.startsWith errorData "0x08c379a0") eqn:Herr.
  - destruct (decodeString _) as [reason|] eqn:Hdecode; simpl in Hthrow.
    + discriminate.
    + injection Hthrow as <-. auto.
  - destruct (Js.startsWith errorData "0x4e487b71") eqn:Hpanic;
      [|simpl in Hthrow; discriminate].
    destruct (decodeUint _) as [code|] eqn:Hdecode; simpl in Hthrow.
    + rewrite (toNumber_safe code (Hsafe code eq_refl eq_refl)) in Hthrow.
      simpl in Hthrow. discriminate.
    + injection Hthrow as <-. auto.
Qed.

(** C8, as the script has it: when the string form begins with the
    lower-case 0x08c379a0 or 0x4e487b71 and the decoder rejects the payload,
    the composition of the report throws the decoder's fault whatever the
    matches are, and [decodeErrorData] ends with that throw once the scan
    returned: on no runtime is a report returned.  And, as long as a panic
    payload does not decode to a code of 2^53 or more, nothing else leaves
    the decoding: a throw of the composition is the decoder's under one of
    the two prefixes, and a throw of [decodeErrorData] is that, or the throw
    of [getContractFactory] while the candidate set is built, before any
    decoding. *)
Theorem standard_decode_failure_is_fatal :
  forall textIndent : string,
    (forall (payload : string) (decodedCustomErrorStrings : list string),
       decodeString ("0x" ++ payload) = None ->
       classify ("0x08c379a0" ++ payload) = Throw AbiDecodeError
       /\ composeReport ("0x08c379a0" ++ payload) textIndent decodedCustomErrorStrings
          = Throw AbiDecodeError
       /\ forall h : Hre,
            (exists e, decodeErrorData ("0x08c379a0" ++ payload) textIndent h = (Throw e, h))
            /\ (fst (decodeCustomErrorData ("0x08c379a0" ++ payload) h)
                = Ok decodedCustomErrorStrings ->
                decodeErrorData ("0x08c379a0" ++ payload) textIndent h
                = (Throw AbiDecodeError, h)))
    /\ (forall (payload : string) (decodedCustomErrorStrings : list string),
          decodeUint ("0x" ++ payload) = None ->
          classify ("0x4e487b71" ++ payload) = Throw AbiDecodeError
          /\ composeReport ("0x4e487b71" ++ payload) textIndent decodedCustomErrorStrings
             = Throw AbiDecodeError
          /\ forall h : Hre,
               (exists e, decodeErrorData ("0x4e487b71" ++ payload) textIndent h = (Throw e, h))
               /\ (fst (decodeCustomErrorData ("0x4e487b71" ++ payload) h)
                   = Ok decodedCustomErrorStrings ->
                   decodeErrorData ("0x4e487b71" ++ payload) textIndent h
                   = (Throw AbiDecodeError, h)))
    /\ (forall (errorData : string) (decodedCustomErrorStrings : list string) (e : exn),
          composeReport errorData textIndent decodedCustomErrorStrings = Throw e ->
          (forall code,
             Js.startsWith errorData "0x4e487b71" = true ->
             decodeUint ("0x" ++ Js.substringFrom 10 errorData) = Some code ->
             (code < 2 ^ 53)%N) ->
          e = AbiDecodeError
          /\ ((Js.startsWith errorData "0x08c379a0" = true
               /\ decodeString ("0x" ++ Js.substringFrom 10 errorData) = None)
              \/ (Js.startsWith errorData "0x08c379a0" = false
                  /\ Js.startsWith errorData "0x4e487b71" = true
                  /\ decodeUint ("0x" ++ Js.substringFrom 10 errorData) = None)))
    /\ (forall (errorData : string) (h : Hre) (e : exn),
          fst (decodeErrorData errorData textIndent h) = Throw e ->
          (forall code,
             Js.startsWith errorData "0x4e487b71" = true ->
             decodeUint ("0x" ++ Js.substringFrom 10 errorData) = Some code ->
             (code < 2 ^ 53)%N) ->
          (e = ContractFactoryError
           /\ fst (getDeployableContractEntities h) = Throw ContractFactoryError)
          \/ (e = AbiDecodeError
              /\ (exists decodedCustomErrorStrings,
                    fst (decodeCustomErrorData errorData h) = Ok decodedCustomErrorStrings)
              /\ ((Js.startsWith errorData "0x08c379a0" = true
                   /\ decodeString ("0x" ++ Js.substringFrom 10 errorData) = None)
                  \/ (Js.startsWith errorData "0x08c379a0" = false
                      /\ Js.startsWith errorData "0x4e487b71" = true
                      /\ decodeUint ("0x" ++ Js.substringFrom 10 errorData) = None)))).
Proof.
  intros textIndent. split; [|split; [|split]].
  - intros payload ms Hnone.
    assert (Hall : forall ms', composeReport ("0x08c379a0" ++ payload) textIndent ms'
                               = Throw AbiDecodeError).
    { intros ms'. exact (proj1 (standard_decode_failure_propagates payload textIndent ms') Hnone). }
    split; [now rewrite classify_error_prefix, Hnone|].
    split; [apply Hall|].
    intros h. split.
    + rewrite decodeErrorData_run.
      destruct (fst (decodeCustomErrorData ("0x08c379a0" ++ payload) h)) as [ms'|e]; simpl.
      * rewrite Hall. now exists AbiDecodeError.
      * now exists e.
    + intros Hscan. rewrite (decodeErrorData_matched _ _ _ _ Hscan). now rewrite Hall.
  - intros payload ms Hnone.
    assert (Hall : forall ms', composeReport ("0x4e487b71" ++ payload) textIndent ms'
                               = Throw AbiDecodeError).
    { intros ms'. exact (proj2 (standard_decode_failure_propagates payload textIndent ms') Hnone). }
    split; [now rewrite classify_panic_prefix, Hnone|].
    split; [apply Hall|].
    intros h. split.
    + rewrite decodeErrorData_run.
      destruct (fst (decodeCustomErrorData ("0x4e487b71" ++ payload) h)) as [ms'|e]; simpl.
      * rewrite Hall. now exists AbiDecodeError.
      * now exists e.
    + intros Hscan. rewrite (decodeErrorData_matched _ _ _ _ Hscan). now rewrite Hall.
  - intros errorData ms e. apply composeReport_throw.
  - intros errorData h e Hthrow Hsafe.
    rewrite decodeErrorData_run in Hthrow. cbn [fst] in Hthrow.
    destruct (fst (decodeCustomErrorData errorData h)) as [ms|e'] eqn:Hscan;
      simpl in Hthrow.
    + right. destruct (composeReport_throw _ _ _ _ Hthrow Hsafe) as (-> & Hwhy).
      split; [reflexivity|]. split; [now exists ms | exact Hwhy].
    + injection Hthrow as <-. left. now apply (decodeCustomErrorData_throw errorData).
Qed.

End RuntimeFacts.

(** ** The codec instance *)

Section EthersFacts.

Lemma bytesOfDigits_length :
  forall (digits : string) (bytes : list N),
    Hex.bytesOfDigits digits = Some bytes ->
    String.length digits = 2 * List.length bytes.
Proof.
  fix IH 1.
  intros [|hi [|lo rest]] bytes H; simpl in H.
  - injection H as <-. reflexivity.
  - discriminate.
  - destruct (Hex.digitValue hi); [|discriminate].
    destruct (Hex.digitValue lo); [|discriminate].
    destruct (Hex.bytesOfDigits rest) as [bs|] eqn:E; [|discriminate].
    injection H as <-. simpl. rewrite (IH rest bs E). lia.
Qed.

(** The instance throws on data too short to hold a selector. *)
Lemma ethers_parseError_needs_selector :
  forall (iface : list Ethers.ErrorFragment) (data : string),
    String.length data < 10 -> Ethers.parseError iface data = None.
Proof.
  intros iface data Hlen. unfold Ethers.parseError, Hex.toBytes.
  destruct (Js.startsWith data "0x") eqn:E; [|reflexivity].
  apply startsWith_inv in E. simpl in E.
  destruct (Hex.bytesOfDigits _) as [bytes|] eqn:B; [|reflexivity].
  apply bytesOfDigits_length in B.
  rewrite E in Hlen. simpl in Hlen.
  destruct bytes as [|b0 [|b1 [|b2 [|b3 payload]]]]; try reflexivity.
  simpl in B. lia.
Qed.

End EthersFacts.

(** ** The statements on the example data *)

Section Examples.

Import Example.

Local Existing Instance Ethers.codec.

(** Error("insufficient funds") and Panic(0x11) are classified as the
    specification's round trips say. *)
Lemma classify_by_hex_prefix_witness :
  classify insufficientFundsData = Ok (StandardMessage "insufficient funds")
  /\ classify panic11Data
     = Ok (StandardPanic 0x11%N
             "Arithmetic operation underflowed or overflowed outside of an unchecked block")
  /\ classify unknownData = Ok Unclassified.
Proof.
  destruct (classify_by_hex_prefix (codec := Ethers.codec)) as (Herr & Hpanic & Hnone).
  split; [|split].
  - apply (Herr insufficientFundsPayload "insufficient funds"). reflexivity.
  - apply (Hpanic (zeros 62 ++ "11") 0x11%N); [reflexivity | reflexivity].
  - apply (Hnone unknownData); intros payload H; discriminate H.
Defined.

(** The upper-case form of Error("insufficient funds"): its first four
    bytes are the selector of Error(string), it has more than four bytes and
    its payload decodes as a string, and yet it is unclassified. *)
Lemma classify_uppercase_counterexample :
  Hex.selectorOf upperCaseData = Some errorSelector
  /\ 4 <= Hex.byteLength upperCaseData
  /\ decodeString ("0x" ++ Js.substringFrom 10 upperCaseData) = Some "insufficient funds"
  /\ classify upperCaseData = Ok Unclassified
  /\ classify upperCaseData <> Ok (StandardMessage "insufficient funds").
Proof.
  split; [reflexivity|].
  split; [vm_compute; lia|].
  split; [reflexivity|].
  split; [reflexivity|].
  discriminate.
Qed.

(** Two contracts that declare RevocationLimitReached: two entries, the
    processor's first. *)
Lemma matchCustomErrors_successes_in_order_witness :
  matchCustomErrors revocationLimitData [processor; token]
  = [ "RevocationLimitReached(3) -- from contract " ++ Js.dquote ++ "CardPaymentProcessor"
        ++ Js.dquote;
      "RevocationLimitReached(3) -- from contract " ++ Js.dquote ++ "TokenMock"
        ++ Js.dquote ]
  /\ matchCustomErrors unknownData [processor; token] = [].
Proof.
  destruct (matchCustomErrors_successes_in_order revocationLimitData [processor; token])
    as (_ & _ & Htwo).
  destruct (matchCustomErrors_successes_in_order unknownData [processor; token])
    as (_ & Hskip & _).
  split.
  - apply (Htwo processor token
             {| errorFragment_name := "RevocationLimitReached"; args := [Ethers.VNumber 3] |}
             {| errorFragment_name := "RevocationLimitReached"; args := [Ethers.VNumber 3] |}
             eq_refl eq_refl eq_refl).
  - rewrite (Hskip [] processor [token] eq_refl eq_refl). reflexivity.
Defined.

(** A hex-like argument and a decimal one; the entry for a blacklisted
    account, with its address between quotes, and the entry for a
    revocation limit, with its number as it is. *)
Lemma arguments_quoted_when_hex_like_witness :
  renderArgString "0xABCDEF" = Js.dquote ++ "0xABCDEF" ++ Js.dquote
  /\ renderArgString "42" = "42"
  /\ matchCustomErrors blacklistedData [processor]
     = ["BlacklistedAccount(" ++ Js.dquote ++ "0x1111111111111111111111111111111111111111"
          ++ Js.dquote ++ ") -- from contract " ++ Js.dquote ++ "CardPaymentProcessor"
          ++ Js.dquote]
  /\ matchCustomErrors revocationLimitData [processor]
     = ["RevocationLimitReached(3) -- from contract " ++ Js.dquote
          ++ "CardPaymentProcessor" ++ Js.dquote].
Proof.
  destruct (arguments_quoted_when_hex_like (codec := Ethers.codec))
    as (Hquoted & Hplain & _ & _ & _ & _ & _ & Hentry & _).
  split; [apply (Hquoted "ABCDEF")|].
  split; [apply (Hplain "42"); intros rest H; discriminate H|].
  split.
  - rewrite (Hentry blacklistedData processor
               {| errorFragment_name := "BlacklistedAccount";
                  args := [Ethers.VHexString "0x1111111111111111111111111111111111111111"] |}
               eq_refl).
    reflexivity.
  - rewrite (Hentry revocationLimitData processor
               {| errorFragment_name := "RevocationLimitReached";
                  args := [Ethers.VNumber 3] |}
               eq_refl).
    reflexivity.
Defined.

(** Three bytes of error data against the two example contracts. *)
Lemma short_data_unclassified_no_match_witness :
  Hex.byteLength shortData < 4
  /\ classify shortData = Ok Unclassified
  /\ matchCustomErrors shortData [processor; token] = [].
Proof.
  assert (Hshort : Hex.byteLength shortData < 4) by (vm_compute; lia).
  split; [exact Hshort|].
  destruct (short_data_unclassified_no_match (codec := Ethers.codec)
              ethers_parseError_needs_selector shortData [processor; token] Hshort)
    as (Hc & Hm & _).
  split; assumption.
Defined.

(** The wording of the second line: on an error no contract declares, the
    script writes the block of lines 118-119, which is not the block of the
    specification. *)
Lemma undecodable_report_wording_counterexample :
  classify unknownData = Ok Unclassified
  /\ fst (decodeCustomErrorData unknownData hre) = Ok []
  /\ fst (decodeErrorData unknownData textLevelIndent hre)
     = Ok (undecodableBlock textLevelIndent)
  /\ undecodableBlock textLevelIndent <> specUndecodableBlock textLevelIndent.
Proof.
  split; [reflexivity|].
  split; [reflexivity|].
  split; [reflexivity|].
  vm_compute. discriminate.
Qed.

Lemma undecodable_report_two_lines_witness :
  classify unknownData = Ok Unclassified
  /\ composeReport unknownData textLevelIndent [] = Ok (undecodableBlock textLevelIndent).
Proof.
  assert (Hc : classify unknownData = Ok Unclassified) by reflexivity.
  split; [exact Hc|].
  destruct (undecodable_report_two_lines unknownData textLevelIndent Hc) as (Hreport & _).
  exact Hreport.
Defined.

(** Error("insufficient funds") against a contract with an error of the
    same selector: the standard line, then the custom error. *)
Lemma secondary_block_after_standard_line_witness :
  fst (decodeErrorData insufficientFundsData textLevelIndent twinHre)
  = Ok ("  Reverted with the message: " ++ Js.dquote ++ "insufficient funds" ++ Js.dquote
          ++ ". Also it can be the following custom error(s):" ++ Js.newline
          ++ "    SelectorTwin(32) -- from contract " ++ Js.dquote ++ "Twin" ++ Js.dquote).
Proof.
  assert (Hc : classify insufficientFundsData
               = Ok (StandardMessage "insufficient funds")) by reflexivity.
  assert (Hstd : StandardMessage "insufficient funds" <> Unclassified) by discriminate.
  assert (Hsome : matchCustomErrors insufficientFundsData [twin] <> [])
    by (vm_compute; discriminate).
  assert (Hscan : fst (decodeCustomErrorData insufficientFundsData twinHre)
                  = Ok (matchCustomErrors insufficientFundsData [twin])) by reflexivity.
  destruct (secondary_block_after_standard_line insufficientFundsData textLevelIndent
              (StandardMessage "insufficient funds")
              (matchCustomErrors insufficientFundsData [twin])
              Hc Hstd Hsome) as (_ & Hrun).
  rewrite (Hrun twinHre Hscan). reflexivity.
Defined.

(** The lower-case malformed data throws out of the script. *)
Lemma standard_decode_failure_is_fatal_witness :
  decodeErrorData malformedData textLevelIndent hre = (Throw AbiDecodeError, hre).
Proof.
  destruct (standard_decode_failure_is_fatal textLevelIndent) as (Herr & _).
  assert (Hnone : decodeString ("0x" ++ "00") = None) by reflexivity.
  destruct (Herr "00" (matchCustomErrors malformedData [processor; token]) Hnone)
    as (_ & _ & Hrun).
  apply (Hrun hre). reflexivity.
Defined.

(** The same bytes in upper case: the first four bytes are the selector of
    Error(string) and the payload is no encoding of a string, and the script
    returns the report of an unclassified error. *)
Lemma uppercase_malformed_counterexample :
  Hex.selectorOf upperCaseMalformedData = Some errorSelector
  /\ decodeString ("0x" ++ Js.substringFrom 10 upperCaseMalformedData) = None
  /\ classify upperCaseMalformedData = Ok Unclassified
  /\ decodeErrorData upperCaseMalformedData textLevelIndent hre
     = (Ok (undecodableBlock textLevelIndent), hre).
Proof.
  split; [reflexivity|].
  split; [reflexivity|].
  split; [reflexivity|].
  reflexivity.
Qed.

(** Panic(2^53): the payload is a well-formed uint256, which the decoder
    returns and which prints as 0x20000000000000; the table has the
    placeholder for it; and the script throws the overflow fault of
    [toNumber], which no [try] of the script catches.  Panic(0x11) is
    reported. *)
Lemma panic_code_overflow_escapes :
  decodeUint ("0x" ++ Js.substringFrom 10 panicBigData) = Some (2 ^ 53)%N
  /\ BigNumber.toHexString (2 ^ 53)%N = "0x20000000000000"
  /\ panicErrorCodeToReason (2 ^ 53)%Z = "???"
  /\ classify panicBigData = Throw NumericOverflow
  /\ decodeErrorData panicBigData textLevelIndent hre = (Throw NumericOverflow, hre)
  /\ classify panic11Data
     = Ok (StandardPanic 0x11%N
             "Arithmetic operation underflowed or overflowed outside of an unchecked block").
Proof.
  split; [reflexivity|].
  split; [reflexivity|].
  split; [reflexivity|].
  split; [reflexivity|].
  split; [|reflexivity].
  assert (Hdecode : decodeUint ("0x" ++ (zeros 50 ++ "20000000000000")) = Some (2 ^ 53)%N)
    by reflexivity.
  rewrite (decodeErrorData_matched panicBigData textLevelIndent hre
             (matchCustomErrors panicBigData [processor; token]) eq_refl).
  unfold panicBigData.
  now rewrite (panic_code_overflow_propagates (zeros 50 ++ "20000000000000")
                 textLevelIndent (2 ^ 53)%N _ Hdecode (N.le_refl _)).
Qed.

End Examples.

(** * Further properties of the script *)

(** ** The candidate set (lines 49-60) *)

Section DeployableFacts.

Context `{codec : AbiCodec}.

Lemma entitiesOf_same_answers (h : Hre) (listed names : list string) :
  entitiesOf
    {| allFullyQualifiedNames := listed;
       artifactOf := artifactOf h;
       contractFactoryOf := contractFactoryOf h |} names
  = entitiesOf h names.
Proof.
  induction names as [|name names IH]; simpl; [reflexivity|].
  now rewrite IH.
Qed.

Lemma entitiesOf_app (h : Hre) (first second : list string) :
  entitiesOf h (first ++ second)
  = match entitiesOf h first, entitiesOf h second with
    | Some entities, Some others => Some (entities ++ others)%list
    | _, _ => None
    end.
Proof.
  induction first as [|name first IH]; simpl.
  - destruct (entitiesOf h second); reflexivity.
  - destruct (String.eqb (bytecode (artifactOf h name)) "0x"); [exact IH|].
    destruct (contractFactoryOf h name) as [factory|]; [|reflexivity].
    rewrite IH.
    destruct (entitiesOf h first), (entitiesOf h second); reflexivity.
Qed.

Lemma entitiesOf_Some (h : Hre) (names : list string) :
  forall entities,
    entitiesOf h names = Some entities
    <-> Forall2
          (fun contractFullName entity =>
             artifact entity = artifactOf h contractFullName
             /\ contractFactoryOf h contractFullName = Some (contractFactory entity))
          (filter (fun contractFullName =>
                           negb (String.eqb (bytecode (artifactOf h contractFullName)) "0x")) names) entities.
Proof.
  induction names as [|name names IH]; intros entities; simpl.
  - split.
    + intros H. injection H as <-. constructor.
    + intros H. inversion H. reflexivity.
  - destruct (String.eqb (bytecode (artifactOf h name)) "0x"); simpl; [apply IH|].
    split.
    + destruct (contractFactoryOf h name) as [factory|] eqn:Hfactory; [|discriminate].
      destruct (entitiesOf h names) as [others|]; [|discriminate].
      intros H. injection H as <-. constructor; [now split|]. now apply IH.
    + intros H. inversion H as [|? entity ? others (Hartifact & Hfactory) Hrest]; subst.
      rewrite Hfactory. apply IH in Hrest. rewrite Hrest.
      destruct entity as [a f]. simpl in Hartifact. now subst a.
Qed.

Lemma entitiesOf_None (h : Hre) (names : list string) :
  entitiesOf h names = None
  <-> exists contractFullName,
        In contractFullName names
        /\ bytecode (artifactOf h contractFullName) <> "0x"
        /\ contractFactoryOf h contractFullName = None.
Proof.
  induction names as [|name names IH]; simpl.
  - split; [discriminate | intros (n & [] & _)].
  - destruct (String.eqb_spec (bytecode (artifactOf h name)) "0x") as [Hempty|Hcode].
    + rewrite IH. split.
      * intros (n & Hin & H). exists n. auto.
      * intros (n & [<-|Hin] & Hn & Hnone); [contradiction|]. now exists n.
    + destruct (contractFactoryOf h name) as [factory|] eqn:Hfactory.
      * destruct (entitiesOf h names) as [others|].
        -- split; [discriminate|].
           intros (n & [<-|Hin] & Hn & Hnone); [congruence|].
           assert (Hsome : @None (list ContractEntity) = None) by reflexivity.
           destruct IH as [_ IH]. discriminate IH. now exists n.
        -- split; [|reflexivity]. intros _.
           destruct IH as [IH _]. destruct (IH eq_refl) as (n & Hin & H).
           exists n. auto.
      * split; [|reflexivity]. intros _. exists name. auto.
Qed.

Lemma entitiesOf_bytecode (h : Hre) (names : list string) :
  forall entities,
    entitiesOf h names = Some entities ->
    forall entity, In entity entities -> bytecode (artifact entity) <> "0x".
Proof.
  induction names as [|name names IH]; intros entities; simpl.
  - intros H. injection H as <-. intros entity [].
  - destruct (String.eqb_spec (bytecode (artifactOf h name)) "0x") as [|Hcode];
      [apply IH|].
    destruct (contractFactoryOf h name) as [factory|]; [|discriminate].
    destruct (entitiesOf h names) as [others|]; [|discriminate].
    intros H. injection H as <-. intros entity [<-|Hin]; [exact Hcode|].
    now apply (IH others).
Qed.

(** X1: [getDeployableContractEntities] leaves the runtime as it was.  It
    returns a list exactly when the list holds, for the listed names whose
    artifact has bytecode other than 0x, taken in the order of the names
    and once for each time a name is listed, the artifact and the factory
    of that name: the factory of every such name was there.  It throws
    exactly when the factory of a listed contract with bytecode is
    missing, and the throw is that of [getContractFactory].  The factory of
    a contract without bytecode is never asked for.  A returned list has
    entities with bytecode only, and no more of them than names. *)
Theorem deployable_entities_have_bytecode :
  forall h : Hre,
    snd (getDeployableContractEntities h) = h
    /\ (forall entities : list ContractEntity,
          fst (getDeployableContractEntities h) = Ok entities
          <-> Forall2
                (fun contractFullName entity =>
                   artifact entity = artifactOf h contractFullName
                   /\ contractFactoryOf h contractFullName
                      = Some (contractFactory entity))
                (filter (fun contractFullName =>
                           negb (String.eqb (bytecode (artifactOf h contractFullName)) "0x")) (allFullyQualifiedNames h)) entities)
    /\ (forall e : exn,
          fst (getDeployableContractEntities h) = Throw e
          <-> e = ContractFactoryError
              /\ exists contractFullName,
                   In contractFullName (allFullyQualifiedNames h)
                   /\ bytecode (artifactOf h contractFullName) <> "0x"
                   /\ contractFactoryOf h contractFullName = None)
    /\ (forall entities : list ContractEntity,
          fst (getDeployableContractEntities h) = Ok entities ->
          (forall entity, In entity entities -> bytecode (artifact entity) <> "0x")
          /\ List.length entities <= List.length (allFullyQualifiedNames h)).
Proof.
  intros h. rewrite getDeployableContractEntities_run. cbn [fst snd].
  unfold deployableOf.
  split; [reflexivity|]. split; [|split].
  - intros entities. rewrite <- entitiesOf_Some.
    destruct (entitiesOf h (allFullyQualifiedNames h)); simpl; split;
      intros H; congruence.
  - intros e. rewrite <- entitiesOf_None.
    destruct (entitiesOf h (allFullyQualifiedNames h)); simpl; split.
    + discriminate.
    + intros (_ & H). discriminate.
    + intros H. injection H as <-. auto.
    + intros (-> & _). reflexivity.
  - intros entities Hrun.
    assert (Hsome : entitiesOf h (allFullyQualifiedNames h) = Some entities).
    { destruct (entitiesOf h (allFullyQualifiedNames h)); simpl in Hrun; congruence. }
    split.
    + exact (entitiesOf_bytecode h _ _ Hsome).
    + apply entitiesOf_Some in Hsome.
      rewrite <- (Forall2_length Hsome). apply filter_length_le.
Qed.

(** X2: a contract without bytecode (an interface, an abstract contract)
    takes no part: with its name in the list or not, the scan for custom
    errors and the report are the same, whatever its interface declares. *)
Theorem contract_without_bytecode_is_ignored :
  forall (h : Hre) (before after : list string) (contractFullName errorData textIndent : string),
    allFullyQualifiedNames h = (before ++ contractFullName :: after)%list ->
    bytecode (artifactOf h contractFullName) = "0x" ->
    let without :=
      {| allFullyQualifiedNames := (before ++ after)%list;
         artifactOf := artifactOf h;
         contractFactoryOf := contractFactoryOf h |} in
    fst (decodeCustomErrorData errorData h) = fst (decodeCustomErrorData errorData without)
    /\ fst (decodeErrorData errorData textIndent h)
       = fst (decodeErrorData errorData textIndent without).
Proof.
  intros h before after name errorData textIndent Hnames Hcode without.
  assert (Hsame : deployableOf h = deployableOf without).
  { unfold without, deployableOf. cbn [allFullyQualifiedNames].
    rewrite entitiesOf_same_answers, Hnames, !entitiesOf_app. simpl.
    now rewrite Hcode. }
  assert (Hscan : fst (decodeCustomErrorData errorData h)
                  = fst (decodeCustomErrorData errorData without)).
  { rewrite !decodeCustomErrorData_run. cbn [fst]. now rewrite Hsame. }
  split; [exact Hscan|].
  rewrite !decodeErrorData_run. cbn [fst]. now rewrite Hscan.
Qed.

End DeployableFacts.

(** ** The scan for custom errors (lines 62-86) *)

Section ScanFacts.

Context `{codec : AbiCodec}.

Lemma successfulDecodes_In (errorData decodedError : string)
    (candidates : list ContractEntity) :
  In decodedError (successfulDecodes errorData candidates)
  <-> exists candidate,
        In candidate candidates /\ tryDecode errorData candidate = Some decodedError.
Proof.
  unfold successfulDecodes. rewrite in_flat_map. split.
  - intros (c & Hc & Hin). exists c. split; [exact Hc|].
    destruct (tryDecode errorData c) as [s|]; simpl in Hin; [|contradiction].
    destruct Hin as [->|[]]. reflexivity.
  - intros (c & Hc & Hdec). exists c. split; [exact Hc|].
    rewrite Hdec. now left.
Qed.

(** X3: an entry of the scan is the rendering of an error that [parseError]
    of one of the candidates returned for this error data, under the name of
    that candidate's contract, and every such rendering is an entry.  The
    scan has at most one entry per candidate, none for no candidates, and
    one per candidate exactly when every candidate decodes the data. *)
Theorem scan_entries_are_candidate_decodes :
  forall (errorData : string) (candidates : list ContractEntity),
    (forall decodedError,
       In decodedError (matchCustomErrors errorData candidates)
       <-> exists candidate errorDescription,
             In candidate candidates
             /\ parseError (interface (contractFactory candidate)) errorData
                = Some errorDescription
             /\ decodedError
                = errorFragment_name errorDescription ++ "("
                    ++ decodedArgsOf errorDescription ++ ") -- from contract "
                    ++ Js.dquote ++ contractName (artifact candidate) ++ Js.dquote)
    /\ List.length (matchCustomErrors errorData candidates) <= List.length candidates
    /\ matchCustomErrors errorData [] = []
    /\ (List.length (matchCustomErrors errorData candidates) = List.length candidates
        <-> forall candidate,
              In candidate candidates ->
              parseError (interface (contractFactory candidate)) errorData <> None).
Proof.
  intros errorData candidates.
  rewrite matchCustomErrors_successfulDecodes.
  split; [|split; [|split]].
  - intros decodedError. rewrite successfulDecodes_In. split.
    + intros (c & Hc & Hdec). unfold tryDecode in Hdec.
      destruct (parseError _ errorData) as [d|] eqn:Hparse; [|discriminate].
      injection Hdec as <-. exists c, d. auto.
    + intros (c & d & Hc & Hparse & ->). exists c. split; [exact Hc|].
      unfold tryDecode. now rewrite Hparse.
  - induction candidates as [|c cs IH]; simpl; [lia|].
    rewrite length_app. destruct (tryDecode errorData c); simpl; lia.
  - reflexivity.
  - assert (Hle : forall cs, List.length (successfulDecodes errorData cs) <= List.length cs).
    { induction cs as [|c cs IH]; simpl; [lia|].
      rewrite length_app. destruct (tryDecode errorData c); simpl; lia. }
    induction candidates as [|c cs IH]; simpl.
    + split; [intros _ c []|reflexivity].
    + rewrite length_app. unfold tryDecode at 1.
      destruct (parseError (interface (contractFactory c)) errorData) as [d|] eqn:Hparse;
        simpl.
      * split.
        -- intros Hlen c' [<-|Hin]; [congruence|].
           apply IH; [lia | exact Hin].
        -- intros Hall. f_equal. apply IH. intros c' Hin. apply Hall. now right.
      * split.
        -- intros Hlen. specialize (Hle cs). lia.
        -- intros Hall. exfalso. apply (Hall c); [now left | exact Hparse].
Qed.

(** X4: scanning two lists of candidates one after the other is scanning
    their concatenation: the entries of the first list, then those of the
    second; so the entries of a list of candidates are those of its
    candidates, each scanned alone, in order. *)
Theorem scan_of_concatenation :
  forall (errorData : string) (first second : list ContractEntity),
    matchCustomErrors errorData (first ++ second)%list
    = (matchCustomErrors errorData first ++ matchCustomErrors errorData second)%list
    /\ matchCustomErrors errorData first
       = concat (map (fun candidate => matchCustomErrors errorData [candidate]) first).
Proof.
  intros errorData first second. split.
  - rewrite !matchCustomErrors_successfulDecodes. apply successfulDecodes_app.
  - rewrite matchCustomErrors_successfulDecodes. unfold successfulDecodes.
    rewrite flat_map_concat_map. reflexivity.
Qed.

(** X5: the callback of [args.map] never returns a string that begins with
    0x, and applying it to its own result changes nothing: an argument is
    quoted once. *)
Theorem rendered_argument_is_not_hex_like :
  forall argString : string,
    Js.startsWith (renderArgString argString) "0x" = false
    /\ renderArgString (renderArgString argString) = renderArgString argString.
Proof.
  intros argString.
  assert (Hnot : Js.startsWith (renderArgString argString) "0x" = false).
  { unfold renderArgString.
    destruct (Js.startsWith argString "0x") eqn:E; [reflexivity | exact E]. }
  split; [exact Hnot|].
  unfold renderArgString at 1. now rewrite Hnot.
Qed.

End ScanFacts.

(** ** The lines of the report (lines 102-129) *)

Section LineFacts.

Lemma append_empty_r (s : string) : s ++ EmptyString = s.
Proof.
  induction s as [|c s IH]; simpl; [reflexivity | now rewrite IH].
Qed.

Lemma hasNewline_app (a b : string) :
  Text.hasNewline (a ++ b) = Text.hasNewline a || Text.hasNewline b.
Proof.
  induction a as [|c a IH]; simpl; [reflexivity|].
  rewrite IH. now rewrite orb_assoc.
Qed.

Lemma splitLines_single (s : string) :
  Text.hasNewline s = false -> Text.splitLines s = [s].
Proof.
  induction s as [|c s IH]; simpl; intros H; [reflexivity|].
  apply orb_false_iff in H as (Hc & Hs).
  rewrite Hc, (IH Hs). reflexivity.
Qed.

Lemma splitLines_app (a b : string) :
  Text.hasNewline a = false ->
  Text.splitLines (a ++ b)
  = (a ++ hd EmptyString (Text.splitLines b)) :: tl (Text.splitLines b).
Proof.
  induction a as [|c a IH]; simpl; intros H.
  - destruct b as [|c b]; simpl; [reflexivity|].
    destruct (Text.isNewline c); [reflexivity|].
    destruct (Text.splitLines b); reflexivity.
  - apply orb_false_iff in H as (Hc & Ha).
    rewrite Hc, (IH Ha). reflexivity.
Qed.

Lemma splitLines_newline (b : string) :
  Text.splitLines (Js.newline ++ b) = EmptyString :: Text.splitLines b.
Proof. reflexivity. Qed.

(** A text before a line feed is a line of its own. *)
Lemma splitLines_line (a b : string) :
  Text.hasNewline a = false ->
  Text.splitLines (a ++ Js.newline ++ b) = a :: Text.splitLines b.
Proof.
  intros H. rewrite (splitLines_app a _ H), splitLines_newline. simpl.
  now rewrite append_empty_r.
Qed.

(** The matches joined at the next indent are one line each. *)
Lemma splitLines_matchLines (nextIndent : string) (customMatches : list string) :
  Text.hasNewline nextIndent = false ->
  (forall m, In m customMatches -> Text.hasNewline m = false) ->
  customMatches <> [] ->
  Text.splitLines (matchLines nextIndent customMatches)
  = map (fun m => nextIndent ++ m) customMatches.
Proof.
  intros Hindent. unfold matchLines, Js.join.
  induction customMatches as [|m ms IH]; intros Hclean Hsome; [congruence|].
  destruct ms as [|m' ms].
  - simpl. apply splitLines_single. rewrite hasNewline_app, Hindent. simpl.
    apply Hclean. now left.
  - change (String.concat (Js.newline ++ nextIndent) (m :: m' :: ms))
      with (m ++ (Js.newline ++ nextIndent)
              ++ String.concat (Js.newline ++ nextIndent) (m' :: ms)).
    rewrite <- (append_assoc nextIndent m), (append_assoc Js.newline nextIndent).
    rewrite splitLines_line.
    + rewrite IH; [reflexivity | | discriminate].
      intros x Hx. apply Hclean. now right.
    + rewrite hasNewline_app, Hindent. simpl. apply Hclean. now left.
Qed.

Lemma startsWith_app_assoc (a b c : string) : Js.startsWith ((a ++ b) ++ c) a = true.
Proof. rewrite append_assoc. apply startsWith_app. Qed.

End LineFacts.

Section ReportShape.

Context `{codec : AbiCodec}.

(** X6: whatever the error data and the matches, a report the script
    returns begins with the indent it was called with. *)
Theorem report_begins_with_indent :
  forall (errorData textIndent report : string) (decodedCustomErrorStrings : list string),
    composeReport errorData textIndent decodedCustomErrorStrings = Ok report ->
    Js.startsWith report textIndent = true.
Proof.
  intros errorData textIndent report ms H.
  rewrite composeReport_classify in H.
  destruct (classify errorData) as [c|e]; simpl in H; [|discriminate].
  injection H as <-.
  destruct c, ms; simpl; unfold undecodableBlock;
    first [apply startsWith_app | apply startsWith_app_assoc].
Qed.

(** X7: for unclassified error data with matches that hold no line feed,
    called with an indent that holds none, the report is the headline at the
    indent and then one line per match, each at the indent and one level
    more, in the order of the matches: one line more than there are matches,
    every line beginning with the indent. *)
Theorem custom_error_report_lines :
  forall (errorData textIndent : string) (customMatches : list string),
    classify errorData = Ok Unclassified ->
    customMatches <> [] ->
    Text.hasNewline textIndent = false ->
    (forall m, In m customMatches -> Text.hasNewline m = false) ->
    exists report : string,
      composeReport errorData textIndent customMatches = Ok report
      /\ Text.splitLines report
         = (textIndent ++ "Reverted with a custom error (or several suitable ones):")
             :: map (fun m => (textIndent ++ textLevelIndent) ++ m) customMatches
      /\ List.length (Text.splitLines report) = S (List.length customMatches)
      /\ Forall (fun line => Js.startsWith line textIndent = true) (Text.splitLines report).
Proof.
  intros errorData textIndent ms Hc Hsome Hindent Hclean.
  exists (textIndent ++ "Reverted with a custom error (or several suitable ones):"
            ++ Js.newline ++ matchLines (textIndent ++ textLevelIndent) ms).
  split.
  { rewrite composeReport_classify, Hc. simpl. destruct ms; [congruence|]. reflexivity. }
  assert (Hlines :
    Text.splitLines
      (textIndent ++ "Reverted with a custom error (or several suitable ones):"
         ++ Js.newline ++ matchLines (textIndent ++ textLevelIndent) ms)
    = (textIndent ++ "Reverted with a custom error (or several suitable ones):")
        :: map (fun m => (textIndent ++ textLevelIndent) ++ m) ms).
  { rewrite <- append_assoc, splitLines_line.
    - rewrite splitLines_matchLines; [reflexivity | | exact Hclean | exact Hsome].
      now rewrite hasNewline_app, Hindent.
    - now rewrite hasNewline_app, Hindent. }
  split; [exact Hlines|]. rewrite Hlines.
  split; [simpl; now rewrite length_map|].
  constructor; [apply startsWith_app|].
  apply Forall_forall. intros line Hin.
  apply in_map_iff in Hin as (m & <- & _). apply startsWith_app_assoc.
Qed.

(** X8: for error data of a standard kind whose line holds no line feed,
    the report without matches is that one line at the indent; with matches
    (that hold no line feed) the first line is the line of the standard kind
    followed by the note on custom errors, and one line per match follows,
    each at the indent and one level more. *)
Theorem standard_report_lines :
  forall (errorData textIndent : string) (classification : ClassificationResult)
         (customMatches : list string),
    classify errorData = Ok classification ->
    classification <> Unclassified ->
    Text.hasNewline textIndent = false ->
    Text.hasNewline (primaryLine classification) = false ->
    (forall m, In m customMatches -> Text.hasNewline m = false) ->
    exists report : string,
      composeReport errorData textIndent customMatches = Ok report
      /\ Text.splitLines report
         = match customMatches with
           | [] => [textIndent ++ primaryLine classification]
           | _ :: _ =>
               ((textIndent ++ primaryLine classification)
                  ++ " Also it can be the following custom error(s):")
                 :: map (fun m => (textIndent ++ textLevelIndent) ++ m) customMatches
           end
      /\ List.length (Text.splitLines report) = S (List.length customMatches).
Proof.
  intros errorData textIndent c ms Hc Hstd Hindent Hline Hclean.
  assert (Hreport : composeReport errorData textIndent ms = Ok (formatReport c ms textIndent)).
  { rewrite composeReport_classify, Hc. reflexivity. }
  exists (formatReport c ms textIndent). split; [exact Hreport|].
  assert (Hfirst : Text.hasNewline (textIndent ++ primaryLine c) = false).
  { now rewrite hasNewline_app, Hindent, Hline. }
  destruct ms as [|m ms].
  - assert (Hform : formatReport c [] textIndent = textIndent ++ primaryLine c).
    { destruct c; [reflexivity | reflexivity | congruence]. }
    rewrite Hform, (splitLines_single _ Hfirst). split; reflexivity.
  - assert (Hform :
      formatReport c (m :: ms) textIndent
      = ((textIndent ++ primaryLine c) ++ " Also it can be the following custom error(s):")
          ++ Js.newline ++ matchLines (textIndent ++ textLevelIndent) (m :: ms)).
    { destruct c; [| | congruence]; simpl; now rewrite !append_assoc. }
    rewrite Hform, splitLines_line.
    + rewrite splitLines_matchLines; [| | exact Hclean | discriminate].
      * split; [reflexivity|]. simpl. now rewrite length_map.
      * now rewrite hasNewline_app, Hindent.
    + now rewrite hasNewline_app, Hfirst.
Qed.

End ReportShape.

(** ** The panic-code table, read backwards (lines 24-47) *)

Section PanicTableFacts.

(** X13: the reason tells the code.  The placeholder of three question
    marks is returned for the codes outside the table and for no code of the
    table, and two codes of the table with the same reason are the same
    code. *)
Theorem panic_reason_identifies_code :
  (forall code : Z, panicErrorCodeToReason code = "???" <-> ~ In code panicCodes)
  /\ (forall code other : Z,
        In code panicCodes ->
        In other panicCodes ->
        panicErrorCodeToReason code = panicErrorCodeToReason other ->
        code = other).
Proof.
  split.
  - intros code. split.
    + intros Hreason Hin. simpl in Hin.
      repeat (destruct Hin as [<-|Hin]; [discriminate Hreason|]). exact Hin.
    + intros Hout. unfold panicErrorCodeToReason.
      repeat match goal with
      | |- context [Z.eqb code ?c] =>
          destruct (Z.eqb_spec code c) as [->|_];
          [exfalso; apply Hout; simpl; tauto|]
      end.
      reflexivity.
  - intros code other Hcode Hother. simpl in Hcode, Hother.
    repeat (destruct Hcode as [<-|Hcode]; [|]);
      try contradiction;
      repeat (destruct Hother as [<-|Hother]; [|]);
      try contradiction;
      intros Hsame; first [reflexivity | discriminate Hsame].
Qed.

End PanicTableFacts.

(** ** main (lines 132-196) *)

Section MainFacts.

Import Replay.

Context `{codec : AbiCodec}.

(** X9: when the original network does not know the hash, or the
    transaction has no block number or block number 0, or it has no raw data
    or empty raw data, [main] says so and ends: the promise resolves, and
    the only commands of the run are the creation of the provider and the
    lookup of the transaction; the Hardhat network is neither reset nor
    mined nor sent anything. *)
Theorem main_stops_before_the_fork :
  forall (txHash rpcUrl : string) (net : Network) (h : Hre),
    (getTransaction net txHash = Answered None ->
     outcome (main txHash rpcUrl net h) = Resolved tt
     /\ commands (trace (main txHash rpcUrl net h))
        = [NewJsonRpcProvider rpcUrl; GetTransaction txHash]
     /\ last (trace (main txHash rpcUrl net h)) EvmMine
        = ConsoleLog [JsString (textLevelIndent
                        ++ "⛔ The transaction with the provided hash does not exist.")])
    /\ (forall txResponse,
          getTransaction net txHash = Answered (Some txResponse) ->
          blockNumber txResponse = None \/ blockNumber txResponse = Some 0%Z ->
          outcome (main txHash rpcUrl net h) = Resolved tt
          /\ commands (trace (main txHash rpcUrl net h))
             = [NewJsonRpcProvider rpcUrl; GetTransaction txHash]
          /\ last (trace (main txHash rpcUrl net h)) EvmMine
             = ConsoleLog [JsString (textLevelIndent
                             ++ "⛔ The transaction with the provided hash has not been minted yet.")])
    /\ (forall txResponse n,
          getTransaction net txHash = Answered (Some txResponse) ->
          blockNumber txResponse = Some n -> n <> 0%Z ->
          raw txResponse = None \/ raw txResponse = Some EmptyString ->
          outcome (main txHash rpcUrl net h) = Resolved tt
          /\ commands (trace (main txHash rpcUrl net h))
             = [NewJsonRpcProvider rpcUrl; GetTransaction txHash]
          /\ last (trace (main txHash rpcUrl net h)) EvmMine
             = ConsoleLog [JsString (textLevelIndent
                             ++ "⛔ The transaction does not have the raw data with the signature. Check the RPC!")]).
Proof.
  intros txHash rpcUrl net h. split; [|split].
  - intros Hnone. run_main. rewrite Hnone. repeat split.
  - intros tx Hfound Hblock. run_main. rewrite Hfound.
    destruct Hblock as [Hblock|Hblock]; rewrite Hblock; repeat split.
  - intros tx n Hfound Hblock Hn Hraw. run_main. rewrite Hfound, Hblock.
    cbn [numberIsFalsy]. destruct (Z.eqb_spec n 0) as [|_]; [contradiction|].
    destruct Hraw as [Hraw|Hraw]; rewrite Hraw; repeat split.
Qed.

(** X10: for a transaction with a block number and raw data, [main] resets
    the Hardhat network to a fork of the original network at the block
    before the transaction's, mines, and sends the raw data, in this order
    and once each; a failure of the reset or of the mining rejects the
    promise and nothing is sent. *)
Theorem main_forks_at_the_previous_block :
  forall (txHash rpcUrl : string) (net : Network) (h : Hre)
         (txBlockNumber : Z) (txRaw : string),
    getTransaction net txHash
    = Answered (Some {| blockNumber := Some txBlockNumber; raw := Some txRaw |}) ->
    txBlockNumber <> 0%Z ->
    txRaw <> EmptyString ->
    (hardhatReset net rpcUrl (txBlockNumber - 1) = Failed ->
     outcome (main txHash rpcUrl net h) = Rejected RpcFault
     /\ commands (trace (main txHash rpcUrl net h))
        = [NewJsonRpcProvider rpcUrl; GetTransaction txHash;
           HardhatReset rpcUrl (txBlockNumber - 1)])
    /\ (hardhatReset net rpcUrl (txBlockNumber - 1) = Answered tt ->
        evmMine net = Failed ->
        outcome (main txHash rpcUrl net h) = Rejected RpcFault
        /\ commands (trace (main txHash rpcUrl net h))
           = [NewJsonRpcProvider rpcUrl; GetTransaction txHash;
              HardhatReset rpcUrl (txBlockNumber - 1); EvmMine])
    /\ (hardhatReset net rpcUrl (txBlockNumber - 1) = Answered tt ->
        evmMine net = Answered tt ->
        commands (trace (main txHash rpcUrl net h))
        = [NewJsonRpcProvider rpcUrl; GetTransaction txHash;
           HardhatReset rpcUrl (txBlockNumber - 1); EvmMine; SendTransaction txRaw]).
Proof.
  intros txHash rpcUrl net h bn r Hfound Hbn Hr.
  assert (Hnonempty : (String.length r =? 0)%nat = false).
  { destruct r; [congruence | reflexivity]. }
  split; [|split].
  - intros Hreset. run_main. rewrite Hfound. cbn [blockNumber raw numberIsFalsy stringIsFalsy].
    destruct (Z.eqb_spec bn 0) as [|_]; [contradiction|].
    rewrite Hnonempty, Hreset. split; reflexivity.
  - intros Hreset Hmine. run_main. rewrite Hfound.
    cbn [blockNumber raw numberIsFalsy stringIsFalsy].
    destruct (Z.eqb_spec bn 0) as [|_]; [contradiction|].
    rewrite Hnonempty, Hreset, Hmine. split; reflexivity.
  - intros Hreset Hmine. run_main. rewrite Hfound.
    cbn [blockNumber raw numberIsFalsy stringIsFalsy].
    destruct (Z.eqb_spec bn 0) as [|_]; [contradiction|].
    rewrite Hnonempty, Hreset, Hmine.
    destruct (sendTransaction net r) as [e|]; [|reflexivity].
    destruct (data e) as [d|]; [|reflexivity].
    destruct (2 <? String.length d)%nat; [|reflexivity].
    rewrite decodeErrorData_run.
    destruct (rbind _ _); reflexivity.
Qed.

(** X11: when sending throws, the error data is decoded only if it is
    there and longer than two characters (more than the bare 0x).  Then the
    decoder is called with an indent of seven spaces; its report is the last
    thing logged and the promise resolves, or its throw rejects the promise
    right after the line that announces the decoding.  Otherwise the last
    thing logged is the error data itself and the promise resolves. *)
Theorem main_decodes_error_data_longer_than_two :
  forall (txHash rpcUrl : string) (net : Network) (h : Hre)
         (txBlockNumber : Z) (txRaw : string) (thrown : ThrownError),
    getTransaction net txHash
    = Answered (Some {| blockNumber := Some txBlockNumber; raw := Some txRaw |}) ->
    txBlockNumber <> 0%Z ->
    txRaw <> EmptyString ->
    hardhatReset net rpcUrl (txBlockNumber - 1) = Answered tt ->
    evmMine net = Answered tt ->
    sendTransaction net txRaw = Some thrown ->
    (forall errorData report,
       data thrown = Some errorData ->
       2 < String.length errorData ->
       fst (decodeErrorData errorData "       " h) = Ok report ->
       outcome (main txHash rpcUrl net h) = Resolved tt
       /\ exists earlier,
            trace (main txHash rpcUrl net h)
            = (earlier
                 ++ [ConsoleLog [JsString "    👉 The result of error data decoding:"];
                     ConsoleLog [JsString report]])%list)
    /\ (forall errorData e,
          data thrown = Some errorData ->
          2 < String.length errorData ->
          fst (decodeErrorData errorData "       " h) = Throw e ->
          outcome (main txHash rpcUrl net h) = Rejected (DecoderFault e)
          /\ last (trace (main txHash rpcUrl net h)) EvmMine
             = ConsoleLog [JsString "    👉 The result of error data decoding:"])
    /\ ((data thrown = None
         \/ exists errorData, data thrown = Some errorData /\ String.length errorData <= 2) ->
        outcome (main txHash rpcUrl net h) = Resolved tt
        /\ last (trace (main txHash rpcUrl net h)) EvmMine
           = ConsoleLog [JsString "    👉 The error data:"; jsOfString (data thrown)]).
Proof.
  intros txHash rpcUrl net h bn r thrown Hfound Hbn Hr Hreset Hmine Hsend.
  assert (Hnonempty : (String.length r =? 0)%nat = false).
  { destruct r; [congruence | reflexivity]. }
  split; [|split].
  - intros d report Hdata Hlong Hdecode.
    rewrite decodeErrorData_run in Hdecode. cbn [fst] in Hdecode.
    run_main. rewrite Hfound. cbn [blockNumber raw numberIsFalsy stringIsFalsy].
    destruct (Z.eqb_spec bn 0) as [|_]; [contradiction|].
    rewrite Hnonempty, Hreset, Hmine, Hsend, Hdata.
    apply Nat.ltb_lt in Hlong. rewrite Hlong.
    rewrite decodeErrorData_run.
    change (((textLevelIndent ++ textLevelIndent) ++ textLevelIndent) ++ " ") with "       ".
    rewrite Hdecode. split; [reflexivity|].
    cbn [app trace].
    match goal with
    | |- exists earlier, ?l = _ => exists (firstn 23 l)
    end.
    reflexivity.
  - intros d e Hdata Hlong Hdecode.
    rewrite decodeErrorData_run in Hdecode. cbn [fst] in Hdecode.
    run_main. rewrite Hfound. cbn [blockNumber raw numberIsFalsy stringIsFalsy].
    destruct (Z.eqb_spec bn 0) as [|_]; [contradiction|].
    rewrite Hnonempty, Hreset, Hmine, Hsend, Hdata.
    apply Nat.ltb_lt in Hlong. rewrite Hlong.
    rewrite decodeErrorData_run.
    change (((textLevelIndent ++ textLevelIndent) ++ textLevelIndent) ++ " ") with "       ".
    rewrite Hdecode. split; reflexivity.
  - intros Hdata.
    run_main. rewrite Hfound. cbn [blockNumber raw numberIsFalsy stringIsFalsy].
    destruct (Z.eqb_spec bn 0) as [|_]; [contradiction|].
    rewrite Hnonempty, Hreset, Hmine, Hsend.
    destruct Hdata as [Hdata|(d & Hdata & Hshort)]; rewrite Hdata.
    + split; reflexivity.
    + assert (Hno : (2 <? String.length d)%nat = false) by (apply Nat.ltb_ge; exact Hshort).
      rewrite Hno. split; reflexivity.
Qed.

(** X12: the promise of [main] is rejected in two ways only.  Either a call
    to a network outside the [try] failed, and then nothing was sent to the
    Hardhat network; or the transaction was sent, the send threw with error
    data longer than two characters, and the decoder threw on that error
    data: the fault of [main] is the decoder's. *)
Theorem main_rejects_on_rpc_or_decoder_fault_only :
  forall (txHash rpcUrl : string) (net : Network) (h : Hre) (fault : Fault),
    outcome (main txHash rpcUrl net h) = Rejected fault ->
    (fault = RpcFault
     /\ forall txRaw, ~ In (SendTransaction txRaw) (trace (main txHash rpcUrl net h)))
    \/ (exists (e : exn) (txRaw : string) (thrown : ThrownError) (errorData : string),
          fault = DecoderFault e
          /\ In (SendTransaction txRaw) (trace (main txHash rpcUrl net h))
          /\ sendTransaction net txRaw = Some thrown
          /\ data thrown = Some errorData
          /\ 2 < String.length errorData
          /\ fst (decodeErrorData errorData "       " h) = Throw e).
Proof.
  intros txHash rpcUrl net h fault. run_main.
  destruct (getTransaction net txHash) as [[[[bn|] [r|]]|]|];
    cbn [blockNumber raw numberIsFalsy stringIsFalsy trace outcome runtime];
    try discriminate.
  - destruct (Z.eqb_spec bn 0) as [|_]; [discriminate|].
    destruct (String.length r =? 0)%nat; [discriminate|].
    destruct (hardhatReset net rpcUrl (bn - 1)) as [[]|].
    + destruct (evmMine net) as [[]|].
      * destruct (sendTransaction net r) as [thrown|] eqn:Hsend; [|discriminate].
        destruct (data thrown) as [d|] eqn:Hdata; [|discriminate].
        destruct (2 <? String.length d)%nat eqn:Hlong; [|discriminate].
        rewrite decodeErrorData_run.
        change (((textLevelIndent ++ textLevelIndent) ++ textLevelIndent) ++ " ")
          with "       ".
        destruct (rbind (fst (decodeCustomErrorData d h))
                    (fun ms => composeReport d "       " ms))
          as [report|e] eqn:Hdecode; [discriminate|].
        intros H. injection H as <-. right.
        exists e, r, thrown, d.
        split; [reflexivity|]. split; [simpl; tauto|].
        split; [exact Hsend|]. split; [exact Hdata|].
        split; [now apply Nat.ltb_lt|].
        rewrite decodeErrorData_run. exact Hdecode.
      * intros H. injection H as <-. left. split; [reflexivity|].
        intros txRaw. simpl. intuition discriminate.
    + intros H. injection H as <-. left. split; [reflexivity|].
      intros txRaw. simpl. intuition discriminate.
  - destruct (Z.eqb_spec bn 0) as [|_]; discriminate.
  - intros H. injection H as <-. left. split; [reflexivity|].
    intros txRaw. simpl. intuition discriminate.
Qed.

End MainFacts.

(** ** The further statements on the example data *)

Section FurtherExamples.

Import Example Replay ReplayExample.

Local Existing Instance Ethers.codec.

(** The interface between the two contracts of the example runtime. *)
Lemma contract_without_bytecode_is_ignored_witness :
  fst (decodeErrorData revocationLimitData textLevelIndent hre)
  = fst (decodeErrorData revocationLimitData textLevelIndent
           {| allFullyQualifiedNames :=
                [ "contracts/CardPaymentProcessor.sol:CardPaymentProcessor";
                  "contracts/TokenMock.sol:TokenMock" ];
              artifactOf := artifactOf hre;
              contractFactoryOf := contractFactoryOf hre |}).
Proof.
  exact (proj2 (contract_without_bytecode_is_ignored hre
                  ["contracts/CardPaymentProcessor.sol:CardPaymentProcessor"]
                  ["contracts/TokenMock.sol:TokenMock"]
                  "contracts/ICardPaymentProcessor.sol:ICardPaymentProcessor"
                  revocationLimitData textLevelIndent eq_refl eq_refl)).
Defined.

(** The report on an unknown error at one level of indent. *)
Lemma report_begins_with_indent_witness :
  Js.startsWith (undecodableBlock textLevelIndent) textLevelIndent = true.
Proof.
  exact (report_begins_with_indent unknownData textLevelIndent
           (undecodableBlock textLevelIndent) [] eq_refl).
Defined.

(** RevocationLimitReached(3) against the two contracts: three lines. *)
Lemma custom_error_report_lines_witness :
  exists report : string,
    composeReport revocationLimitData "       "
      (matchCustomErrors revocationLimitData [processor; token]) = Ok report
    /\ List.length (Text.splitLines report) = 3.
Proof.
  assert (Hclean : forall m,
            In m (matchCustomErrors revocationLimitData [processor; token]) ->
            Text.hasNewline m = false).
  { intros m [<-|[<-|[]]]; reflexivity. }
  assert (Hsome : matchCustomErrors revocationLimitData [processor; token] <> [])
    by discriminate.
  destruct (custom_error_report_lines revocationLimitData "       "
              (matchCustomErrors revocationLimitData [processor; token])
              eq_refl Hsome eq_refl Hclean)
    as (report & Hreport & _ & Hcount & _).
  exists report. split; [exact Hreport | exact Hcount].
Defined.

(** Error("insufficient funds") against the contract with the twin
    selector: two lines. *)
Lemma standard_report_lines_witness :
  exists report : string,
    composeReport insufficientFundsData "       "
      (matchCustomErrors insufficientFundsData [twin]) = Ok report
    /\ List.length (Text.splitLines report) = 2.
Proof.
  assert (Hclean : forall m,
            In m (matchCustomErrors insufficientFundsData [twin]) ->
            Text.hasNewline m = false).
  { intros m [<-|[]]; reflexivity. }
  assert (Hstd : StandardMessage "insufficient funds" <> Unclassified) by discriminate.
  assert (Hc : classify insufficientFundsData = Ok (StandardMessage "insufficient funds"))
    by reflexivity.
  assert (Hline : Text.hasNewline (primaryLine (StandardMessage "insufficient funds")) = false)
    by reflexivity.
  destruct (standard_report_lines insufficientFundsData "       "
              (StandardMessage "insufficient funds")
              (matchCustomErrors insufficientFundsData [twin])
              Hc Hstd eq_refl Hline Hclean)
    as (report & Hreport & _ & Hcount).
  exists report. split; [exact Hreport | exact Hcount].
Defined.

(** The two contracts of the example runtime, in the order of their names;
    and the throw when the token contract has unlinked libraries. *)
Lemma deployable_entities_have_bytecode_witness :
  fst (getDeployableContractEntities hre) = Ok [processor; token]
  /\ fst (getDeployableContractEntities unlinkedHre) = Throw ContractFactoryError.
Proof.
  destruct (deployable_entities_have_bytecode hre) as (_ & Hlist & _).
  destruct (deployable_entities_have_bytecode unlinkedHre) as (_ & _ & Hthrow & _).
  split.
  - apply Hlist. simpl. repeat constructor.
  - apply Hthrow. split; [reflexivity|].
    exists "contracts/TokenMock.sol:TokenMock".
    split; [simpl; tauto|]. split; [discriminate | reflexivity].
Defined.

(** The entry of the token contract for RevocationLimitReached(3). *)
Lemma scan_entries_are_candidate_decodes_witness :
  In ("RevocationLimitReached(3) -- from contract " ++ Js.dquote ++ "TokenMock" ++ Js.dquote)
     (matchCustomErrors revocationLimitData [processor; token]).
Proof.
  destruct (scan_entries_are_candidate_decodes revocationLimitData [processor; token])
    as (Hentries & _).
  apply Hentries.
  exists token, {| errorFragment_name := "RevocationLimitReached";
                   args := [Ethers.VNumber 3] |}.
  split; [simpl; tauto|]. split; reflexivity.
Defined.

(** The code 0x52 is outside the table. *)
Lemma panic_reason_identifies_code_witness :
  panicErrorCodeToReason 0x52 = "???".
Proof.
  apply (proj1 panic_reason_identifies_code 0x52%Z).
  simpl. intros H. repeat (destruct H as [H|H]; [discriminate H|]). exact H.
Defined.

(** A pending transaction: nothing is done on the Hardhat network. *)
Lemma main_stops_before_the_fork_witness :
  outcome (main txHash rpcUrl pendingNetwork hre) = Resolved tt
  /\ commands (trace (main txHash rpcUrl pendingNetwork hre))
     = [NewJsonRpcProvider rpcUrl; GetTransaction txHash].
Proof.
  destruct (main_stops_before_the_fork txHash rpcUrl pendingNetwork hre)
    as (_ & Hpending & _).
  destruct (Hpending {| blockNumber := None; raw := Some rawTx |} eq_refl (or_introl eq_refl))
    as (Houtcome & Hcommands & _).
  split; [exact Houtcome | exact Hcommands].
Defined.

(** The transaction of block 1200 is replayed on a fork at block 1199. *)
Lemma main_forks_at_the_previous_block_witness :
  commands (trace (main txHash rpcUrl (revertingSend (Some revocationLimitData)) hre))
  = [NewJsonRpcProvider rpcUrl; GetTransaction txHash;
     HardhatReset rpcUrl 1199; EvmMine; SendTransaction rawTx].
Proof.
  assert (Hblock : 1200%Z <> 0%Z) by discriminate.
  assert (Hraw : rawTx <> EmptyString) by discriminate.
  destruct (main_forks_at_the_previous_block txHash rpcUrl
              (revertingSend (Some revocationLimitData)) hre 1200%Z rawTx
              eq_refl Hblock Hraw)
    as (_ & _ & Hsent).
  exact (Hsent eq_refl eq_refl).
Defined.

(** The revert with RevocationLimitReached(3) is decoded, and the revert
    with the bare 0x is not. *)
Lemma main_decodes_error_data_longer_than_two_witness :
  outcome (main txHash rpcUrl (revertingSend (Some revocationLimitData)) hre) = Resolved tt
  /\ last (trace (main txHash rpcUrl (revertingSend (Some "0x")) hre)) EvmMine
     = ConsoleLog [JsString "    👉 The error data:"; JsString "0x"].
Proof.
  assert (Hblock : 1200%Z <> 0%Z) by discriminate.
  assert (Hraw : rawTx <> EmptyString) by discriminate.
  destruct (main_decodes_error_data_longer_than_two txHash rpcUrl
              (revertingSend (Some revocationLimitData)) hre 1200%Z rawTx _
              eq_refl Hblock Hraw eq_refl eq_refl eq_refl)
    as (Hdecoded & _ & _).
  destruct (main_decodes_error_data_longer_than_two txHash rpcUrl
              (revertingSend (Some "0x")) hre 1200%Z rawTx _
              eq_refl Hblock Hraw eq_refl eq_refl eq_refl)
    as (_ & _ & Hbare).
  split.
  - assert (Hlong : 2 < String.length revocationLimitData) by (vm_compute; lia).
    destruct (fst (decodeErrorData revocationLimitData "       " hre)) as [report|e] eqn:Hrun;
      [|discriminate Hrun].
    exact (proj1 (Hdecoded revocationLimitData report eq_refl Hlong Hrun)).
  - apply Hbare. right. exists "0x". split; [reflexivity | simpl; lia].
Defined.

(** A revert with malformed Error(string) data: the decoder's throw rejects
    the promise of [main]. *)
Lemma main_rejects_on_rpc_or_decoder_fault_only_witness :
  outcome (main txHash rpcUrl (revertingSend (Some malformedData)) hre)
  = Rejected (DecoderFault AbiDecodeError)
  /\ exists (e : exn) (txRaw : string) (thrown : ThrownError) (errorData : string),
       DecoderFault AbiDecodeError = DecoderFault e
       /\ sendTransaction (revertingSend (Some malformedData)) txRaw = Some thrown
       /\ data thrown = Some errorData
       /\ fst (decodeErrorData errorData "       " hre) = Throw e.
Proof.
  assert (Hrejected :
    outcome (main txHash rpcUrl (revertingSend (Some malformedData)) hre)
    = Rejected (DecoderFault AbiDecodeError)) by reflexivity.
  split; [exact Hrejected|].
  destruct (main_rejects_on_rpc_or_decoder_fault_only txHash rpcUrl
              (revertingSend (Some malformedData)) hre _ Hrejected)
    as [(Hrpc & _) | (e & txRaw & thrown & errorData & Hfault & _ & Hsend & Hdata & _ & Hthrow)].
  - discriminate Hrpc.
  - exists e, txRaw, thrown, errorData. auto.
Defined.

End FurtherExamples.

(** ** The arrays of the script: what a call writes *)

Section HeapFacts.

Context `{codec : AbiCodec}.

Lemma updateAt_last {A : Type} (f : A -> A) (arrays : list A) (a : A) :
  Heap.updateAt (List.length arrays) f (arrays ++ [a]) = (arrays ++ [f a])%list.
Proof.
  induction arrays as [|x arrays IH]; simpl; [reflexivity | now rewrite IH].
Qed.

Lemma skipn_nth_error {A : Type} (l : list A) (i : nat) (x : A) :
  nth_error l i = Some x -> skipn i l = x :: skipn (S i) l.
Proof.
  revert i; induction l as [|y l IH]; intros [|i] H; simpl in *; try discriminate.
  - now injection H as ->.
  - now apply IH.
Qed.

Lemma keeps_refl (w : Heap.World) : Heap.keeps w w.
Proof.
  split; [reflexivity|].
  split; exists []; now rewrite app_nil_r.
Qed.

Lemma keeps_trans (a b c : Heap.World) :
  Heap.keeps a b -> Heap.keeps b c -> Heap.keeps a c.
Proof.
  intros (Hh & (e & He) & (s & Hs)) (Hh' & (e' & He') & (s' & Hs')).
  split; [congruence|].
  split.
  - exists (e ++ e')%list. now rewrite He', He, app_assoc.
  - exists (s ++ s')%list. now rewrite Hs', Hs, app_assoc.
Qed.

(** One round of the loop of lines 52-58, on the array it allocated. *)
Lemma collectDeployable_step (h : Hre) (before : list (list ContractEntity))
    (pushed : list ContractEntity) (strings : list (list string)) (name : string) :
  Heap.collectDeployable (List.length before) name
    {| Heap.hardhat := h;
       Heap.entityArrays := (before ++ [pushed])%list;
       Heap.stringArrays := strings |}
  = if String.eqb (bytecode (artifactOf h name)) "0x" then
      (Ok tt,
       {| Heap.hardhat := h;
          Heap.entityArrays := (before ++ [pushed])%list;
          Heap.stringArrays := strings |})
    else
      match contractFactoryOf h name with
      | Some factory =>
          (Ok tt,
           {| Heap.hardhat := h;
              Heap.entityArrays :=
                (before ++ [(pushed ++ [{| artifact := artifactOf h name;
                                           contractFactory := factory |}])%list])%list;
              Heap.stringArrays := strings |})
      | None =>
          (Throw ContractFactoryError,
           {| Heap.hardhat := h;
              Heap.entityArrays := (before ++ [pushed])%list;
              Heap.stringArrays := strings |})
      end.
Proof.
  unfold Heap.collectDeployable, Heap.hbind, Heap.onRuntime, readArtifact,
    getContractFactory, Heap.pushEntity, Heap.hret.
  cbn [Heap.hardhat Heap.entityArrays Heap.stringArrays].
  destruct (String.eqb (bytecode (artifactOf h name)) "0x"); cbn [negb]; [reflexivity|].
  cbn [Heap.hardhat Heap.entityArrays Heap.stringArrays].
  destruct (contractFactoryOf h name) as [factory|]; cbn [orThrow]; [|reflexivity].
  cbn [Heap.hardhat Heap.entityArrays Heap.stringArrays].
  now rewrite updateAt_last.
Qed.

(** The loop of lines 52-58 pushes to the array it allocated and to no
    other; it ends with the candidates pushed, or with the throw of a
    missing factory. *)
Lemma collectDeployable_heap (names : list string) :
  forall (h : Hre) (before : list (list ContractEntity)) (pushed : list ContractEntity)
         (strings : list (list string)),
    exists more : list ContractEntity,
      Heap.forOf (Heap.collectDeployable (List.length before)) names
        {| Heap.hardhat := h;
           Heap.entityArrays := (before ++ [pushed])%list;
           Heap.stringArrays := strings |}
      = (match entitiesOf h names with
         | Some _ => Ok tt
         | None => Throw ContractFactoryError
         end,
         {| Heap.hardhat := h;
            Heap.entityArrays := (before ++ [(pushed ++ more)%list])%list;
            Heap.stringArrays := strings |})
      /\ (forall entities, entitiesOf h names = Some entities -> more = entities).
Proof.
  induction names as [|name names IH]; intros h before pushed strings.
  - exists []. rewrite app_nil_r. split; [reflexivity|].
    simpl. intros entities H. now injection H.
  - cbn [Heap.forOf entitiesOf]. unfold Heap.hbind.
    rewrite collectDeployable_step.
    destruct (String.eqb (bytecode (artifactOf h name)) "0x").
    + apply IH.
    + destruct (contractFactoryOf h name) as [factory|].
      * destruct (IH h before
                    (pushed ++ [{| artifact := artifactOf h name;
                                   contractFactory := factory |}])%list strings)
          as (more & Hrun & Hmore).
        exists ({| artifact := artifactOf h name; contractFactory := factory |} :: more).
        rewrite Hrun, <- app_assoc. simpl.
        split.
        -- destruct (entitiesOf h names); reflexivity.
        -- destruct (entitiesOf h names) as [others|]; [|discriminate].
           intros entities H. injection H as <-. f_equal. now apply Hmore.
      * exists []. rewrite app_nil_r. split; [reflexivity | discriminate].
Qed.

(** Lines 49-60 on the store: one array more, holding the candidates (or
    those pushed before the throw); nothing else is written. *)
Lemma getDeployableContractEntities_heap (w : Heap.World) :
  exists more : list ContractEntity,
    Heap.getDeployableContractEntities w
    = (match deployableOf (Heap.hardhat w) with
       | Some _ => Ok (List.length (Heap.entityArrays w))
       | None => Throw ContractFactoryError
       end,
       {| Heap.hardhat := Heap.hardhat w;
          Heap.entityArrays := (Heap.entityArrays w ++ [more])%list;
          Heap.stringArrays := Heap.stringArrays w |})
    /\ (forall entities, deployableOf (Heap.hardhat w) = Some entities -> more = entities).
Proof.
  destruct w as [h arrays strings].
  unfold Heap.getDeployableContractEntities, Heap.hbind at 1, Heap.onRuntime,
    getAllFullyQualifiedNames.
  unfold Heap.hbind at 1, Heap.newEntityArray.
  cbn [Heap.hardhat Heap.entityArrays Heap.stringArrays].
  destruct (collectDeployable_heap (allFullyQualifiedNames h) h arrays [] strings)
    as (more & Hrun & Hmore).
  exists more. unfold Heap.hbind. rewrite Hrun. unfold deployableOf.
  split; [|exact Hmore].
  destruct (entitiesOf h (allFullyQualifiedNames h)); reflexivity.
Qed.

(** One round of the [forEach], on the array of strings it allocated. *)
Lemma forEachCallback_step (errorData : string) (h : Hre)
    (arrays : list (list ContractEntity)) (before : list (list string))
    (pushed : list string) (contractEntity : ContractEntity) :
  Heap.forEachCallback errorData (List.length before) contractEntity
    {| Heap.hardhat := h;
       Heap.entityArrays := arrays;
       Heap.stringArrays := (before ++ [pushed])%list |}
  = (Ok tt,
     {| Heap.hardhat := h;
        Heap.entityArrays := arrays;
        Heap.stringArrays := (before ++ [forEachBody errorData pushed contractEntity])%list |}).
Proof.
  unfold Heap.forEachCallback, forEachBody, Heap.pushString, Heap.hret.
  destruct (tryDecode errorData contractEntity); [|reflexivity].
  cbn [Heap.hardhat Heap.entityArrays Heap.stringArrays].
  now rewrite updateAt_last.
Qed.

(** The [forEach] of lines 66-83 reads the array of entities and pushes to
    the array of strings it allocated: from place [i] on, the successful
    decodes of the elements from [i] on are pushed, and no other array is
    written. *)
Lemma forEachFrom_heap (errorData : string) (h : Hre)
    (arrays : list (list ContractEntity)) (before : list (list string))
    (candidates : nat) :
  forall (count i : nat) (pushed : list string),
    count + i = List.length (nth candidates arrays []) ->
    Heap.forEachFrom candidates (Heap.forEachCallback errorData (List.length before)) count i
      {| Heap.hardhat := h;
         Heap.entityArrays := arrays;
         Heap.stringArrays := (before ++ [pushed])%list |}
    = (Ok tt,
       {| Heap.hardhat := h;
          Heap.entityArrays := arrays;
          Heap.stringArrays :=
            (before ++ [(pushed
                           ++ successfulDecodes errorData
                                (skipn i (nth candidates arrays [])))%list])%list |}).
Proof.
  induction count as [|count IH]; intros i pushed Hcount.
  - simpl in Hcount. subst i. rewrite skipn_all. simpl. now rewrite app_nil_r.
  - cbn [Heap.forEachFrom]. unfold Heap.hbind at 1, Heap.entityAt.
    cbn [Heap.hardhat Heap.entityArrays Heap.stringArrays].
    destruct (nth_error (nth candidates arrays []) i) as [entity|] eqn:Hentity.
    + unfold Heap.hbind. rewrite forEachCallback_step.
      rewrite IH by lia.
      rewrite (skipn_nth_error _ _ _ Hentity).
      unfold forEachBody, Js.push. simpl.
      destruct (tryDecode errorData entity); simpl;
        [now rewrite <- app_assoc | reflexivity].
    + apply nth_error_None in Hentity. lia.
Qed.

(** Lines 64-85 on the store: one array of strings more, holding the
    matches of the entities in the array given; nothing else is written. *)
Lemma matchCustomErrors_heap (errorData : string) (candidates : nat) (w : Heap.World) :
  Heap.matchCustomErrors errorData candidates w
  = (Ok (List.length (Heap.stringArrays w)),
     {| Heap.hardhat := Heap.hardhat w;
        Heap.entityArrays := Heap.entityArrays w;
        Heap.stringArrays :=
          (Heap.stringArrays w
             ++ [matchCustomErrors errorData (nth candidates (Heap.entityArrays w) [])])%list |}).
Proof.
  destruct w as [h arrays strings].
  unfold Heap.matchCustomErrors, Heap.hbind at 1, Heap.newStringArray.
  cbn [Heap.hardhat Heap.entityArrays Heap.stringArrays].
  unfold Heap.hbind at 1, Heap.forEach, Heap.hbind at 1, Heap.entityCount.
  cbn [Heap.hardhat Heap.entityArrays Heap.stringArrays].
  rewrite forEachFrom_heap by lia.
  rewrite matchCustomErrors_successfulDecodes. reflexivity.
Qed.

(** Lines 102-129 on the store: the value is that of [decodeErrorData] on
    the runtime, and the arrays there were are kept. *)
Lemma decodeErrorData_heap (errorData textIndent : string) (w : Heap.World) :
  exists w' : Heap.World,
    Heap.decodeErrorData errorData textIndent w
    = (fst (decodeErrorData errorData textIndent (Heap.hardhat w)), w')
    /\ Heap.keeps w w'.
Proof.
  rewrite decodeErrorData_run, decodeCustomErrorData_run. cbn [fst].
  unfold Heap.decodeErrorData, Heap.decodeCustomErrorData, Heap.hbind.
  destruct (getDeployableContractEntities_heap w) as (more & Hrun & Hmore).
  rewrite Hrun.
  destruct (deployableOf (Heap.hardhat w)) as [entities|].
  - rewrite (Hmore entities eq_refl), matchCustomErrors_heap.
    unfold Heap.stringsOf, Heap.ofResult.
    cbn [Heap.hardhat Heap.entityArrays Heap.stringArrays].
    rewrite !nth_middle. cbn [orThrow rbind].
    eexists. split; [reflexivity|].
    split; [reflexivity|]. split; eexists; reflexivity.
  - cbn [orThrow rbind].
    eexists. split; [reflexivity|].
    split; [reflexivity|]. split; [eexists; reflexivity|].
    exists []. now rewrite app_nil_r.
Qed.

(** C9: the decoder holds no state of its own, and writes none it was
    given.  On any store of arrays, [decodeErrorData] returns the value it
    has on the runtime alone, a second call on the store the first call left
    returns the same value, and each call keeps the runtime and every array
    there was before it, the arrays of the first call among them: a call
    writes only to the arrays it allocates.  The scan of lines 64-85, given
    an array of candidates, leaves it and every other array of entities as
    they were, and called twice it returns two arrays of its own, which in
    the end both hold the matches of the candidates.  (The classification
    reads the error data alone, a string, and no array.) *)
Theorem decoding_writes_only_its_own_arrays :
  forall (w : Heap.World) (errorData textIndent : string) (candidates : nat),
    (let first := Heap.decodeErrorData errorData textIndent w in
     let second := Heap.decodeErrorData errorData textIndent (snd first) in
     fst second = fst first
     /\ fst first = fst (decodeErrorData errorData textIndent (Heap.hardhat w))
     /\ Heap.keeps w (snd first)
     /\ Heap.keeps (snd first) (snd second))
    /\ (let scan := Heap.matchCustomErrors errorData candidates w in
        let again := Heap.matchCustomErrors errorData candidates (snd scan) in
        Heap.entityArrays (snd scan) = Heap.entityArrays w
        /\ Heap.entityArrays (snd again) = Heap.entityArrays w
        /\ Heap.keeps w (snd scan)
        /\ Heap.keeps (snd scan) (snd again)
        /\ exists place place' : nat,
             fst scan = Ok place
             /\ fst again = Ok place'
             /\ place <> place'
             /\ nth place (Heap.stringArrays (snd again)) []
                = matchCustomErrors errorData (nth candidates (Heap.entityArrays w) [])
             /\ nth place' (Heap.stringArrays (snd again)) []
                = matchCustomErrors errorData (nth candidates (Heap.entityArrays w) [])).
Proof.
  intros w errorData textIndent candidates. split.
  - cbv zeta.
    destruct (decodeErrorData_heap errorData textIndent w) as (w1 & Hfirst & Hkeeps).
    rewrite Hfirst. cbn [fst snd].
    destruct (decodeErrorData_heap errorData textIndent w1) as (w2 & Hsecond & Hkeeps').
    rewrite Hsecond. cbn [fst snd].
    split; [|split; [reflexivity | split; [exact Hkeeps | exact Hkeeps']]].
    now destruct Hkeeps as (-> & _).
  - cbv zeta. rewrite matchCustomErrors_heap. cbn [fst snd].
    rewrite matchCustomErrors_heap.
    cbn [fst snd Heap.hardhat Heap.entityArrays Heap.stringArrays].
    split; [reflexivity|]. split; [reflexivity|].
    split; [split; [reflexivity|]; split; [exists []; now rewrite app_nil_r|];
            eexists; reflexivity|].
    split; [split; [reflexivity|]; split; [exists []; now rewrite app_nil_r|];
            eexists; reflexivity|].
    exists (List.length (Heap.stringArrays w)),
           (List.length (Heap.stringArrays w ++
              [matchCustomErrors errorData (nth candidates (Heap.entityArrays w) [])])).
    split; [reflexivity|]. split; [reflexivity|].
    split; [rewrite length_app; simpl; lia|].
    split.
    + rewrite app_nth1 by (rewrite length_app; simpl; lia). now rewrite nth_middle.
    + now rewrite nth_middle.
Qed.

End HeapFacts.

Section HeapExamples.

Import Example.

Local Existing Instance Ethers.codec.

(** Two calls on a store that already holds an array of each kind: the
    same report twice, the two arrays of before kept after both calls. *)
Lemma decoding_writes_only_its_own_arrays_witness :
  fst (Heap.decodeErrorData revocationLimitData textLevelIndent
         (snd (Heap.decodeErrorData revocationLimitData textLevelIndent
                 {| Heap.hardhat := hre;
                    Heap.entityArrays := [[twin]];
                    Heap.stringArrays := [["earlier"]] |})))
  = fst (decodeErrorData revocationLimitData textLevelIndent hre)
  /\ Heap.keeps
       {| Heap.hardhat := hre;
          Heap.entityArrays := [[twin]];
          Heap.stringArrays := [["earlier"]] |}
       (snd (Heap.decodeErrorData revocationLimitData textLevelIndent
               (snd (Heap.decodeErrorData revocationLimitData textLevelIndent
                       {| Heap.hardhat := hre;
                          Heap.entityArrays := [[twin]];
                          Heap.stringArrays := [["earlier"]] |})))).
Proof.
  destruct (decoding_writes_only_its_own_arrays
              {| Heap.hardhat := hre;
                 Heap.entityArrays := [[twin]];
                 Heap.stringArrays := [["earlier"]] |}
              revocationLimitData textLevelIndent 0)
    as ((Hsame & Hvalue & Hfirst & Hsecond) & _).
  cbv zeta in Hsame, Hvalue, Hfirst, Hsecond.
  split.
  - rewrite Hsame. exact Hvalue.
  - exact (keeps_trans _ _ _ Hfirst Hsecond).
Defined.

End HeapExamples.
